(** * freqtrade/rpc/telegram.py: the Telegram command router

    A shallow embedding of the module's handlers, its conversation state
    (the globals [_CONF], [_CONVERSATION], [_UPDATED_COINS]) and its
    delivery function [send_msg], followed by the properties of the router
    that the specification states.

    Python text is modelled as [string] (a list of bytes) with ASCII case
    mapping, ASCII digits and ASCII whitespace; code points outside ASCII
    are carried through unchanged.  [int] and [float] are modelled on
    ASCII text, and the statements about them say so. Floats are IEEE
    binary64 values, as [SpecFloat] specifies them. *)

From Stdlib Require Import ZArith List String Ascii Bool Lia DecimalString.
From Stdlib Require SpecFloat.
Import ListNotations.

Local Open Scope string_scope.
Local Open Scope Z_scope.

(** ** Python string primitives used by the module *)
Module PyStr.

Definition nat_of_char (c : ascii) : nat := nat_of_ascii c.

Definition is_lower (c : ascii) : bool :=
  (Nat.leb 97 (nat_of_char c) && Nat.leb (nat_of_char c) 122)%bool.

Definition is_digit (c : ascii) : bool :=
  (Nat.leb 48 (nat_of_char c) && Nat.leb (nat_of_char c) 57)%bool.

(** [str.isspace] on the ASCII range: TAB..CR, FS..US and the blank. *)
Definition is_space (c : ascii) : bool :=
  let n := nat_of_char c in
  ((Nat.leb 9 n && Nat.leb n 13) || (Nat.leb 28 n && Nat.leb n 32))%bool.

Definition digit_val (c : ascii) : Z := Z.of_nat (nat_of_char c - 48).

Definition upper_char (c : ascii) : ascii :=
  if is_lower c then ascii_of_nat (nat_of_char c - 32) else c.

(** [s.upper()] *)
Fixpoint upper (s : string) : string :=
  match s with
  | EmptyString => EmptyString
  | String c r => String (upper_char c) (upper r)
  end.

Fixpoint drop (n : nat) (s : string) : string :=
  match n, s with
  | O, _ => s
  | S k, EmptyString => EmptyString
  | S k, String _ r => drop k r
  end.

(** [s.startswith(pat)] *)
Fixpoint starts_with (pat s : string) : bool :=
  match pat with
  | EmptyString => true
  | String a p =>
      match s with
      | EmptyString => false
      | String b r => (Ascii.eqb a b && starts_with p r)%bool
      end
  end.

(** [pat in s] for strings: [pat] occurs somewhere in [s]. *)
Fixpoint contains (pat s : string) : bool :=
  if starts_with pat s then true
  else match s with
       | EmptyString => false
       | String _ r => contains pat r
       end.

(** [s.replace(pat, '')] for a non-empty [pat]: the occurrences of [pat]
    are found from the left, without overlap, and deleted.  [skip] counts
    the characters of the current occurrence still to be dropped. *)
Fixpoint delete_from (pat : string) (skip : nat) (s : string) : string :=
  match s with
  | EmptyString => EmptyString
  | String c r =>
      match skip with
      | S k => delete_from pat k r
      | O => if starts_with pat s
             then delete_from pat (String.length pat - 1) r
             else String c (delete_from pat 0 r)
      end
  end.

Definition delete_all (pat s : string) : string := delete_from pat 0 s.

(** [s.split(sep)] for a one-character separator. *)
Fixpoint split_on (sep : ascii) (s : string) : list string :=
  match s with
  | EmptyString => [EmptyString]
  | String c r =>
      if Ascii.eqb c sep then EmptyString :: split_on sep r
      else match split_on sep r with
           | [] => [String c EmptyString]
           | w :: ws => String c w :: ws
           end
  end.

(** [s.split(sep, 1)]: at most one cut, at the first separator. *)
Fixpoint split_once (sep : ascii) (s : string) : list string :=
  match s with
  | EmptyString => [EmptyString]
  | String c r =>
      if Ascii.eqb c sep then [EmptyString; r]
      else match split_once sep r with
           | w :: ws => String c w :: ws
           | [] => [String c EmptyString]
           end
  end.

Fixpoint lstrip (s : string) : string :=
  match s with
  | EmptyString => EmptyString
  | String c r => if is_space c then lstrip r else s
  end.

Fixpoint rstrip (s : string) : string :=
  match s with
  | EmptyString => EmptyString
  | String c r =>
      match rstrip r with
      | EmptyString => if is_space c then EmptyString else String c EmptyString
      | r' => String c r'
      end
  end.

(** [s.strip()] *)
Definition strip (s : string) : string := rstrip (lstrip s).

(** A run of decimal digits in which single underscores may separate
    digits (the literal syntax [int] and [float] accept since 3.6);
    returns the value and the number of digits. *)
Fixpoint digit_run (s : string) (acc : Z) (n : nat) (after_digit : bool)
  : option (Z * nat) :=
  match s with
  | EmptyString => if after_digit then Some (acc, n) else None
  | String c r =>
      if is_digit c then digit_run r (10 * acc + digit_val c) (S n) true
      else if Ascii.eqb c "_"
           then if after_digit then digit_run r acc n false else None
           else None
  end.

Definition digits (s : string) : option (Z * nat) := digit_run s 0 O false.

(** Splits off a leading sign; [true] is minus. *)
Definition take_sign (s : string) : bool * string :=
  match s with
  | String c r =>
      if Ascii.eqb c "-" then (true, r)
      else if Ascii.eqb c "+" then (false, r)
      else (false, s)
  | EmptyString => (false, s)
  end.

(** The blanks that [int] and [float] skip around ASCII text: C's
    [isspace], TAB..CR and the blank. ([str.strip] drops FS..US as
    well, the number parsers do not.) *)
Definition is_c_space (c : ascii) : bool :=
  let n := nat_of_char c in
  ((Nat.leb 9 n && Nat.leb n 13) || Nat.eqb n 32)%bool.

Fixpoint skip_blanks (s : string) : string :=
  match s with
  | EmptyString => EmptyString
  | String c r => if is_c_space c then skip_blanks r else s
  end.

Fixpoint drop_trailing_blanks (s : string) : string :=
  match s with
  | EmptyString => EmptyString
  | String c r =>
      match drop_trailing_blanks r with
      | EmptyString => if is_c_space c then EmptyString else String c EmptyString
      | r' => String c r'
      end
  end.

(** The text of a number between the blanks around it. *)
Definition number_text (s : string) : string :=
  drop_trailing_blanks (skip_blanks s).


(** [int(s)] in base ten for ASCII [s]; [None] stands for
    [ValueError]. *)
Definition py_int (s : string) : option Z :=
  let (neg, body) := take_sign (number_text s) in
  match digits body with
  | Some (v, _) => Some (if neg then - v else v)
  | None => None
  end.

(** [str(n)] for an integer. *)
Definition str_of_int (n : Z) : string := NilZero.string_of_int (Z.to_int n).

(** A Python float: an IEEE binary64 value. *)
Definition pyfloat : Set := SpecFloat.spec_float.

Definition PNan : pyfloat := SpecFloat.S754_nan.

Definition PInf (neg : bool) : pyfloat := SpecFloat.S754_infinity neg.

(** The binary64 value nearest to the quotient of two positive
    integers, ties to even, with the given sign: the quotient is taken
    to enough bits, with the place of the remainder, and rounded once;
    too large a value becomes an infinity, too small a one a zero or a
    subnormal. *)
Definition binary64 (neg : bool) (num den : Z) : pyfloat :=
  match num with
  | Zpos _ =>
      let '(q, e, l) := SpecFloat.SFdiv_core_binary 53 1024 num 0 den 0 in
      SpecFloat.binary_round_aux 53 1024 neg q e l
  | _ => SpecFloat.S754_zero neg
  end.

(** The float that the decimal [mant * 10 ^ exp10] is read as. *)
Definition float_of_decimal (neg : bool) (mant exp10 : Z) : pyfloat :=
  if Z.leb 0 exp10 then binary64 neg (mant * 10 ^ exp10) 1
  else binary64 neg mant (10 ^ (- exp10)).

Definition is_digit_or_us (c : ascii) : bool :=
  (is_digit c || Ascii.eqb c "_")%bool.

(** Longest prefix of digit-run characters, and the rest. *)
Fixpoint span_run (s : string) : string * string :=
  match s with
  | EmptyString => (EmptyString, EmptyString)
  | String c r =>
      if is_digit_or_us c
      then let (a, b) := span_run r in (String c a, b)
      else (EmptyString, s)
  end.

(** Optional exponent part: [e] or [E], a sign, a digit run, then the
    end of the text. *)
Definition exponent (s : string) : option Z :=
  match s with
  | EmptyString => Some 0
  | String c r =>
      if Ascii.eqb (upper_char c) "E"
      then let (neg, body) := take_sign r in
           match digits body with
           | Some (v, _) => Some (if neg then - v else v)
           | None => None
           end
      else None
  end.

Definition decimal (s : string) : option (Z * Z) :=
  let (ip, r1) := span_run s in
  match r1 with
  | String "." r2 =>
      let (fp, r3) := span_run r2 in
      match ip, fp with
      | EmptyString, EmptyString => None
      | _, _ =>
          match (if String.eqb ip "" then Some (0, O) else digits ip),
                (if String.eqb fp "" then Some (0, O) else digits fp),
                exponent r3 with
          | Some (iv, _), Some (fv, k), Some e =>
              Some (iv * 10 ^ Z.of_nat k + fv, e - Z.of_nat k)
          | _, _, _ => None
          end
      end
  | _ =>
      match digits ip, exponent r1 with
      | Some (iv, _), Some e => Some (iv, e)
      | _, _ => None
      end
  end.

(** [float(s)] for ASCII [s]; [None] stands for [ValueError]. *)
Definition py_float (s : string) : option pyfloat :=
  let (neg, body) := take_sign (number_text s) in
  let u := upper body in
  if (String.eqb u "INF" || String.eqb u "INFINITY")%bool then Some (PInf neg)
  else if String.eqb u "NAN" then Some PNan
  else match decimal body with
       | Some (m, e) => Some (float_of_decimal neg m e)
       | None => None
       end.

End PyStr.

Import PyStr.

(** ** Data model *)

Inductive Conversation := IDLE | MAX_OPEN_TRADES | STAKE_AMOUNT | UPDATE_COINS.

Inductive ListType := STATIC | DYNAMIC.

Inductive ParseMode := MARKDOWN | HTML.

(** The entries of the configuration dict [_CONF] the module reads or
    writes; [chat_id] is the value of [int(_CONF['telegram']['chat_id'])]. *)
Record Conf := mkConf {
  telegram_enabled : bool;
  telegram_chat_id : Z;
  max_open_trades : Z;
  stake_amount : pyfloat;
  stake_currency : string;
  fiat_display_currency : string;
  pair_whitelist : list string;
  pair_blacklist : list string
}.

Definition set_max_open_trades (v : Z) (c : Conf) : Conf :=
  mkConf (telegram_enabled c) (telegram_chat_id c) v (stake_amount c)
         (stake_currency c) (fiat_display_currency c)
         (pair_whitelist c) (pair_blacklist c).

Definition set_stake_amount (v : pyfloat) (c : Conf) : Conf :=
  mkConf (telegram_enabled c) (telegram_chat_id c) (max_open_trades c) v
         (stake_currency c) (fiat_display_currency c)
         (pair_whitelist c) (pair_blacklist c).

Definition set_pair_whitelist (v : list string) (c : Conf) : Conf :=
  mkConf (telegram_enabled c) (telegram_chat_id c) (max_open_trades c)
         (stake_amount c) (stake_currency c) (fiat_display_currency c)
         v (pair_blacklist c).

Definition set_pair_blacklist (v : list string) (c : Conf) : Conf :=
  mkConf (telegram_enabled c) (telegram_chat_id c) (max_open_trades c)
         (stake_amount c) (stake_currency c) (fiat_display_currency c)
         (pair_whitelist c) v.

Record InlineKeyboardButton := mkButton {
  button_text : string;
  callback_data : string
}.

Inductive Markup :=
| ReplyKeyboardMarkup (keyboard : list (list string))
| InlineKeyboardMarkup (menu : list (list InlineKeyboardButton)).

(** The two calls the module makes on the bot. *)
Inductive BotCall :=
| send_message (chat : Z) (txt : string)
               (parse_mode : option ParseMode) (reply_markup : Markup)
| edit_message_text (txt : string) (chat : Z) (msg_id : Z)
                    (parse_mode : option ParseMode)
                    (reply_markup : option Markup).

(** What the transport does with one call: it delivers, or raises
    [NetworkError] (or a subclass), or raises another [TelegramError]. *)
Inductive Delivery :=
| Delivered
| NetworkError (m : string)
| TelegramError (m : string).

Inductive Exn :=
| ENetworkError (m : string)
| ETelegramError (m : string)
| EIndexError
| EAttributeError.

Inductive Level := DEBUG | INFO | WARNING | ERROR.

(** Everything the module does to the outside, in order. *)
Inductive Event :=
| EvLog (lvl : Level) (msg : string)
| EvLogException (msg : string) (e : Exn)
| EvBot (call : BotCall) (outcome : Delivery)
| EvUpdateConfig (saved : Conf).

(** Inbound updates. A message update has [update.message]; a button
    press has [update.callback_query], whose [message] is the one the
    buttons hang on, and no [update.message]. *)
Record Message := mkMessage {
  chat_id : Z;
  message_id : Z;
  text : string
}.

Record CallbackQuery := mkQuery {
  data : string;
  message : Message
}.

Inductive Update :=
| MessageUpdate (m : Message)
| CallbackUpdate (q : CallbackQuery).

Definition update_message (u : Update) : option Message :=
  match u with
  | MessageUpdate m => Some m
  | CallbackUpdate _ => None
  end.

Definition update_callback_query (u : Update) : option CallbackQuery :=
  match u with
  | MessageUpdate _ => None
  | CallbackUpdate q => Some q
  end.

(** The chat an update comes from. *)
Definition sender (u : Update) : Z :=
  match u with
  | MessageUpdate m => chat_id m
  | CallbackUpdate q => chat_id (message q)
  end.

(** The module globals, the transport's coming outcomes (one per call
    on the bot; it delivers once the list is used up) and the trace of
    what was done. *)
Record State := mkState {
  _CONF : Conf;
  _CONVERSATION : Conversation;
  _UPDATED_COINS : list string;
  transport : list Delivery;
  trace : list Event
}.

(** What a handler hands back to the dispatcher, which ignores it. *)
Inductive RetVal := RNone | RWrapper | RMESSAGE_HANDLER.

(** The answer [(error, payload)] of a backend call: with the flag set the
    payload is a message text, otherwise the data asked for. *)
Inductive Reply (T : Type) :=
| Failed (msg : string)
| Fine (payload : T).
Arguments Failed {T} msg.
Arguments Fine {T} payload.

Definition error {T} (r : Reply T) : bool :=
  match r with Failed _ => true | Fine _ => false end.

(** The collaborators of the module that live outside this file: the
    rpc functions, the exchange's pair validation, the list mode, and
    the text that [tabulate] and the number formats of [str.format]
    produce, which arrives ready-made in the payloads ([rpc_count]
    answers with [len(trades)]). [validate_pairs] answers [Some e] when
    it raises [OperationalException(e)]. *)
Record Env := mkEnv {
  rpc_trade_status : Reply (list string);
  rpc_status_table : Reply string;
  rpc_daily_profit : Z -> string -> string -> Reply string;
  rpc_trade_statistics : string -> string -> Reply string;
  rpc_balance : string -> Reply string;
  rpc_config : Conf -> Reply string;
  rpc_start : Reply string;
  rpc_stop : Reply string;
  rpc_forcesell : string -> Reply string;
  rpc_performance : Reply string;
  rpc_count : Reply nat;
  tabulate_count : nat -> Z -> string;
  validate_pairs : list string -> option string;
  get_list_type : ListType;
  str_of_float : pyfloat -> string;
  version : string
}.

(** ** State and exception monad *)

Inductive Result (A : Type) :=
| Return (a : A)
| Raise (e : Exn).
Arguments Return {A} a.
Arguments Raise {A} e.

Definition M (A : Type) : Type := State -> Result A * State.

Definition ret {A} (a : A) : M A := fun s => (Return a, s).

Definition raise {A} (e : Exn) : M A := fun s => (Raise e, s).

Definition bind {A B} (m : M A) (k : A -> M B) : M B :=
  fun s => match m s with
           | (Return a, s') => k a s'
           | (Raise e, s') => (Raise e, s')
           end.

Notation "x <- m ;; k" := (bind m (fun x => k))
  (at level 61, m at next level, right associativity).
Notation "m ;;; k" := (bind m (fun _ => k))
  (at level 61, right associativity).

(** [try: m except <classes>: h] *)
Definition try_except {A} (m : M A) (catches : Exn -> bool) (h : Exn -> M A)
  : M A :=
  fun s => match m s with
           | (Raise e, s') => if catches e then h e s' else (Raise e, s')
           | r => r
           end.

Definition is_NetworkError (e : Exn) : bool :=
  match e with ENetworkError _ => true | _ => false end.

(** [NetworkError] is a subclass of [TelegramError]. *)
Definition is_TelegramError (e : Exn) : bool :=
  match e with ENetworkError _ | ETelegramError _ => true | _ => false end.

Definition is_BaseException (e : Exn) : bool := true.

Definition exn_message (e : Exn) : string :=
  match e with
  | ENetworkError m | ETelegramError m => m
  | _ => ""
  end.

Definition get : M State := fun s => (Return s, s).

Definition emit (ev : Event) : M unit :=
  fun s => (Return tt,
            mkState (_CONF s) (_CONVERSATION s) (_UPDATED_COINS s)
                    (transport s) (trace s ++ [ev])).

Definition set_CONF (c : Conf) : M unit :=
  fun s => (Return tt,
            mkState c (_CONVERSATION s) (_UPDATED_COINS s)
                    (transport s) (trace s)).

Definition set_CONVERSATION (c : Conversation) : M unit :=
  fun s => (Return tt,
            mkState (_CONF s) c (_UPDATED_COINS s) (transport s) (trace s)).

Definition set_UPDATED_COINS (l : list string) : M unit :=
  fun s => (Return tt,
            mkState (_CONF s) (_CONVERSATION s) l (transport s) (trace s)).

Definition logger (lvl : Level) (msg : string) : M unit := emit (EvLog lvl msg).

(** One call on the bot: the transport's next outcome decides whether it
    returns or raises; the attempt is recorded either way. *)
Definition bot (call : BotCall) : M unit :=
  fun s =>
    let outcome := hd Delivered (transport s) in
    let s' := mkState (_CONF s) (_CONVERSATION s) (_UPDATED_COINS s)
                      (tl (transport s)) (trace s ++ [EvBot call outcome]) in
    match outcome with
    | Delivered => (Return tt, s')
    | NetworkError m => (Raise (ENetworkError m), s')
    | TelegramError m => (Raise (ETelegramError m), s')
    end.

(** [update_config(_CONF)] of [freqtrade.misc]: the persistence
    collaborator is handed the configuration as it then is. *)
Definition update_config : M unit :=
  s <- get ;; emit (EvUpdateConfig (_CONF s)).

(** [update.message.text]; a button press has no [update.message]. *)
Definition message_text (update : Update) : M string :=
  match update_message update with
  | None => raise EAttributeError
  | Some msg => ret (text msg)
  end.

(** ** The module's functions *)

Definition nl : string := String (ascii_of_nat 10) EmptyString.

Definition keyboard : list (list string) :=
  [ ["/daily"; "/profit"; "/balance"; "/config"];
    ["/status"; "/status table"; "/performance"];
    ["/count"; "/start"; "/stop"; "/help"] ].

(** [menu = [buttons[i:i + n_cols] for i in range(0, len(buttons), n_cols)]] *)
Fixpoint slices {A} (fuel n_cols : nat) (buttons : list A) : list (list A) :=
  match fuel, buttons with
  | S f, _ :: _ => firstn n_cols buttons :: slices f n_cols (skipn n_cols buttons)
  | _, _ => []
  end.

(** [build_menu]; no call passes header or footer buttons. *)
Definition build_menu {A} (buttons : list A) (n_cols : nat) : list (list A) :=
  slices (List.length buttons) n_cols buttons.

(** [x in l] for a list of strings. *)
Definition mem (x : string) (l : list string) : bool :=
  existsb (String.eqb x) l.

(** [l.remove(x)] when [x] is in [l]: the first occurrence goes. *)
Fixpoint remove_first (x : string) (l : list string) : list string :=
  match l with
  | [] => []
  | y :: r => if String.eqb x y then r else y :: remove_first x r
  end.

(** [for x in l: body(x)] *)
Fixpoint for_each {A} (l : list A) (body : A -> M unit) : M unit :=
  match l with
  | [] => ret tt
  | x :: r => body x ;;; for_each r body
  end.

(** The two keys [request_input] is called with. *)
Inductive Key := Kmax_open_trades | Kstake_amount.

(** The lines 399-402 of [_daily]: the argument of [/daily] or 7. *)
Definition daily_timescale (txt : string) : Z :=
  match py_int (strip (delete_all "/daily" txt)) with
  | Some n => n
  | None => 7
  end.

Definition pairs_prompt : string :=
  "∙ Tap on coin to remove from the list." ++ nl ++
  "∙ Send coin to add to the list." ++ nl ++
  "∙ Type and send 'Done' when you are finished to save your changes." ++ nl.

Definition help_message : string :=
  nl ++
  "*/start:* `Starts the trader`" ++ nl ++
  "*/stop:* `Stops the trader`" ++ nl ++
  "*/status [table]:* `Lists all open trades`" ++ nl ++
  "            *table :* `will display trades in a table`" ++ nl ++
  "*/profit:* `Lists cumulative profit from all finished trades`" ++ nl ++
  "*/forcesell <trade_id>|all:* `Instantly sells the given trade or all trades, regardless of profit`" ++ nl ++
  "*/performance:* `Show performance of each finished trade grouped by pair`" ++ nl ++
  "*/daily <n>:* `Shows profit or loss per day, over the last n days`" ++ nl ++
  "*/count:* `Show number of trades running compared to allowed number of trades`" ++ nl ++
  "*/balance:* `Show account balance per currency`" ++ nl ++
  "*/help:* `This help message`" ++ nl ++
  "*/version:* `Show version`" ++ nl ++
  "    ".

Section Router.

Variable E : Env.

Definition is_enabled : M bool :=
  s <- get ;; ret (telegram_enabled (_CONF s)).

(** [send_msg(msg, bot, parse_mode)]; there is one bot, so the [bot]
    argument is left out. *)
Definition send_msg (msg : string) (parse_mode : ParseMode) : M unit :=
  enabled <- is_enabled ;;
  if negb enabled then ret tt
  else
    let reply_markup := ReplyKeyboardMarkup keyboard in
    let attempt : M unit :=
      s <- get ;;
      bot (send_message (telegram_chat_id (_CONF s)) msg
                        (Some parse_mode) reply_markup) in
    try_except
      (try_except attempt is_NetworkError
         (fun network_err =>
            logger WARNING ("Telegram NetworkError: " ++ exn_message network_err
                            ++ "! Trying one more time.") ;;;
            attempt))
      is_TelegramError
      (fun telegram_err =>
         logger WARNING ("TelegramError: " ++ exn_message telegram_err
                         ++ "! Giving up on that message.")).

Definition authorized_only (name : string) (command_handler : Update -> M RetVal)
  : Update -> M RetVal :=
  fun update =>
    match update_message update with
    | None => raise EAttributeError
    | Some msg =>
        s <- get ;;
        let chat := telegram_chat_id (_CONF s) in
        if negb (Z.eqb (chat_id msg) chat) then
          logger INFO ("Rejected unauthorized message from: "
                       ++ str_of_int (chat_id msg)) ;;;
          ret RWrapper
        else
          logger INFO ("Executing handler: " ++ name ++ " for chat_id: "
                       ++ str_of_int chat) ;;;
          try_except (command_handler update) is_BaseException
            (fun e =>
               emit (EvLogException "Exception occurred within Telegram module" e) ;;;
               ret RNone)
    end.

Definition _send_inline_keyboard_markup
  (button_list : list InlineKeyboardButton) (message_text : string)
  (n_cols : nat) (edit_message_query : option CallbackQuery) : M unit :=
  let reply_markup := InlineKeyboardMarkup (build_menu button_list n_cols) in
  s <- get ;;
  let chat := telegram_chat_id (_CONF s) in
  match edit_message_query with
  | None => bot (send_message chat message_text None reply_markup)
  | Some q =>
      bot (edit_message_text message_text (chat_id (message q))
                             (message_id (message q)) None (Some reply_markup))
  end.

Definition conf_item (key : Key) (c : Conf) : string :=
  match key with
  | Kmax_open_trades => str_of_int (max_open_trades c)
  | Kstake_amount => str_of_float E (stake_amount c)
  end.

Definition request_input (key : Key) (title : string) (conv : Conversation)
  : M RetVal :=
  s <- get ;;
  send_msg ("Okay, give me new value for " ++ title ++ "." ++ nl ++
            "Current value for " ++ title ++ " is <b>"
            ++ conf_item key (_CONF s) ++ "</b>") HTML ;;;
  set_CONVERSATION conv ;;;
  ret RMESSAGE_HANDLER.

Definition _send_coins_for_deletion (message_text : string)
  (query : option CallbackQuery) : M unit :=
  set_CONVERSATION UPDATE_COINS ;;;
  s <- get ;;
  let buttons_list :=
    map (fun coin => mkButton coin ("x_" ++ coin)) (_UPDATED_COINS s) in
  _send_inline_keyboard_markup buttons_list message_text 3 query.

(** The body of the last branch of [_callback], lines 273-285: the
    button of [coin] was pressed. *)
Definition remove_coin (coin : string) (query : CallbackQuery) : M RetVal :=
  s <- get ;;
  if mem coin (_UPDATED_COINS s) then
    set_UPDATED_COINS (remove_first coin (_UPDATED_COINS s)) ;;;
    let list_type :=
      match get_list_type E with
      | STATIC => "Whitelist" | DYNAMIC => "Blacklist" end in
    _send_coins_for_deletion
      ("✔ Removed " ++ upper coin ++ " from " ++ list_type ++ "."
       ++ nl ++ nl ++ pairs_prompt) (Some query) ;;;
    ret RNone
  else
    send_msg (upper coin ++ " has already been removed from the list")
             MARKDOWN ;;;
    ret RNone.

Definition _callback (update : Update) : M RetVal :=
  match update_callback_query update with
  | None => raise EAttributeError
  | Some query =>
      let callback_data := data query in
      if String.eqb callback_data "view_config" then
        s <- get ;;
        match rpc_config E (_CONF s) with
        | Failed df_pairs => send_msg df_pairs MARKDOWN ;;; ret RNone
        | Fine table =>
            let list_type :=
              match get_list_type E with
              | STATIC => "Whitelisted" | DYNAMIC => "Blacklisted" end in
            let message_text :=
              "∙ <b>Max Open Trades:</b> " ++ str_of_int (max_open_trades (_CONF s)) ++ nl ++
              "∙ <b>Stake Amount:</b> " ++ str_of_float E (stake_amount (_CONF s))
                ++ " " ++ stake_currency (_CONF s) ++ nl ++
              "∙ <b>" ++ list_type ++ " Currencies:</b>" ++ nl ++
              "<pre>" ++ table ++ "</pre>" in
            bot (edit_message_text message_text (chat_id (message query))
                                   (message_id (message query)) (Some HTML) None) ;;;
            ret RNone
        end
      else if String.eqb callback_data "edit_config" then
        _send_inline_keyboard_markup
          [ mkButton "Edit Max Open Trades" "edit_max_open_trades";
            mkButton "Edit Stake Amount" "edit_stake_amount";
            mkButton ("Edit Pair " ++ match get_list_type E with
                                      | STATIC => "Whitelist"
                                      | DYNAMIC => "Blacklist" end)
                     "edit_pairs" ]
          "Select your action" 1 (Some query) ;;;
        ret RNone
      else if String.eqb callback_data "edit_max_open_trades" then
        request_input Kmax_open_trades "max open trades" MAX_OPEN_TRADES
      else if String.eqb callback_data "edit_stake_amount" then
        request_input Kstake_amount "stake amount" STAKE_AMOUNT
      else if String.eqb callback_data "edit_pairs" then
        s <- get ;;
        let list_to_scan :=
          match get_list_type E with
          | STATIC => pair_whitelist (_CONF s)
          | DYNAMIC => pair_blacklist (_CONF s) end in
        for_each list_to_scan
          (fun pair =>
             match nth_error (split_once "_" pair) 1 with
             | None => raise EIndexError
             | Some coin =>
                 s1 <- get ;; set_UPDATED_COINS (_UPDATED_COINS s1 ++ [coin])
             end) ;;;
        _send_coins_for_deletion pairs_prompt (Some query) ;;;
        ret RNone
      else if contains "x_" callback_data then
        match nth_error (split_once "_" callback_data) 1 with
        | None => raise EIndexError
        | Some coin => remove_coin coin query
        end
      else ret RNone
  end.

Definition _process_config_update : M unit :=
  update_config ;;;
  send_msg "Success! Please wait while I am saving these changes to config file..."
           MARKDOWN ;;;
  set_CONVERSATION IDLE.

Definition _handle_coin_updation (update : Update) : M RetVal :=
  user_text <- message_text update ;;
  s <- get ;;
  let stake := stake_currency (_CONF s) in
  if String.eqb (upper user_text) "DONE" then
    let new_list := map (fun coin => stake ++ "_" ++ coin) (_UPDATED_COINS s) in
    set_CONF (match get_list_type E with
              | STATIC => set_pair_whitelist new_list (_CONF s)
              | DYNAMIC => set_pair_blacklist new_list (_CONF s)
              end) ;;;
    _process_config_update ;;;
    set_UPDATED_COINS [] ;;;
    ret RNone
  else
    let coin := upper user_text in
    let list_name :=
      match get_list_type E with
      | STATIC => "Whitelist" | DYNAMIC => "Blacklist" end in
    if mem coin (_UPDATED_COINS s) then
      send_msg (coin ++ " is already added to " ++ list_name) MARKDOWN ;;;
      ret RNone
    else
      match validate_pairs E [stake ++ "_" ++ coin] with
      | Some e =>
          _send_coins_for_deletion
            ("✖ Failure! " ++ e ++ nl ++ nl ++ pairs_prompt) None ;;;
          ret RNone
      | None =>
          set_UPDATED_COINS (_UPDATED_COINS s ++ [coin]) ;;;
          _send_coins_for_deletion
            ("✔ Added " ++ upper coin ++ " to " ++ list_name ++ "."
             ++ nl ++ nl ++ pairs_prompt) None ;;;
          ret RNone
      end.

Definition _message_handler (update : Update) : M RetVal :=
  s <- get ;;
  match _CONVERSATION s with
  | MAX_OPEN_TRADES =>
      txt <- message_text update ;;
      match py_int txt with
      | None =>
          send_msg "I don't understand that. Please ensure that you are entering a valid number."
                   MARKDOWN ;;;
          ret RNone
      | Some new_max_open_trades =>
          set_CONF (set_max_open_trades new_max_open_trades (_CONF s)) ;;;
          _process_config_update ;;;
          ret RNone
      end
  | STAKE_AMOUNT =>
      txt <- message_text update ;;
      match py_float txt with
      | None =>
          send_msg "I don't understand that. Please ensure that you are entering a valid amount."
                   MARKDOWN ;;;
          ret RNone
      | Some new_stake_amount =>
          set_CONF (set_stake_amount new_stake_amount (_CONF s)) ;;;
          _process_config_update ;;;
          ret RNone
      end
  | UPDATE_COINS => _handle_coin_updation update
  | IDLE => ret RNone
  end.

(** *** Command handlers, each registered through [authorized_only] *)

Definition _status_table : Update -> M RetVal :=
  authorized_only "_status_table"
    (fun update =>
       match rpc_status_table E with
       | Failed df_statuses => send_msg df_statuses MARKDOWN ;;; ret RNone
       | Fine table => send_msg ("<pre>" ++ table ++ "</pre>") HTML ;;; ret RNone
       end).

Definition _status : Update -> M RetVal :=
  authorized_only "_status"
    (fun update =>
       txt <- message_text update ;;
       let params :=
         if String.eqb txt "" then []
         else split_on " " (delete_all "/status" txt) in
       if mem "table" params then
         _status_table update ;;; ret RNone
       else
         match rpc_trade_status E with
         | Failed trades => send_msg trades MARKDOWN ;;; ret RNone
         | Fine trades =>
             for_each trades (fun trademsg => send_msg trademsg MARKDOWN) ;;;
             ret RNone
         end).

Definition _config : Update -> M RetVal :=
  authorized_only "_config"
    (fun update =>
       _send_inline_keyboard_markup
         [ mkButton "View config" "view_config";
           mkButton "Edit config" "edit_config" ]
         "Okay, What do you want to do with config?" 2 None ;;;
       ret RNone).

Definition _daily : Update -> M RetVal :=
  authorized_only "_daily"
    (fun update =>
       txt <- message_text update ;;
       let timescale := daily_timescale txt in
       s <- get ;;
       match rpc_daily_profit E timescale (stake_currency (_CONF s))
                              (fiat_display_currency (_CONF s)) with
       | Failed stats => send_msg stats MARKDOWN ;;; ret RNone
       | Fine stats =>
           send_msg ("<b>Daily Profit over the last " ++ str_of_int timescale
                     ++ " days</b>:" ++ nl ++ "<pre>" ++ stats ++ "</pre>") HTML ;;;
           ret RNone
       end).

Definition _profit : Update -> M RetVal :=
  authorized_only "_profit"
    (fun update =>
       s <- get ;;
       match rpc_trade_statistics E (stake_currency (_CONF s))
                                  (fiat_display_currency (_CONF s)) with
       | Failed stats => send_msg stats MARKDOWN ;;; ret RNone
       | Fine markdown_msg => send_msg markdown_msg MARKDOWN ;;; ret RNone
       end).

Definition _balance : Update -> M RetVal :=
  authorized_only "_balance"
    (fun update =>
       s <- get ;;
       match rpc_balance E (fiat_display_currency (_CONF s)) with
       | Failed _ => send_msg "`All balances are zero.`" MARKDOWN ;;; ret RNone
       | Fine output => send_msg output MARKDOWN ;;; ret RNone
       end).

Definition _start : Update -> M RetVal :=
  authorized_only "_start"
    (fun update =>
       match rpc_start E with
       | Failed msg => send_msg msg MARKDOWN ;;; ret RNone
       | Fine _ => ret RNone
       end).

Definition _stop : Update -> M RetVal :=
  authorized_only "_stop"
    (fun update =>
       match rpc_stop E with
       | Failed msg | Fine msg => send_msg msg MARKDOWN ;;; ret RNone
       end).

Definition _forcesell : Update -> M RetVal :=
  authorized_only "_forcesell"
    (fun update =>
       txt <- message_text update ;;
       let trade_id := strip (delete_all "/forcesell" txt) in
       match rpc_forcesell E trade_id with
       | Failed message_text => send_msg message_text MARKDOWN ;;; ret RNone
       | Fine _ => ret RNone
       end).

Definition _performance : Update -> M RetVal :=
  authorized_only "_performance"
    (fun update =>
       match rpc_performance E with
       | Failed trades => send_msg trades MARKDOWN ;;; ret RNone
       | Fine stats =>
           send_msg ("<b>Performance:</b>" ++ nl ++ stats) HTML ;;; ret RNone
       end).

Definition _count : Update -> M RetVal :=
  authorized_only "_count"
    (fun update =>
       match rpc_count E with
       | Failed trades => send_msg trades MARKDOWN ;;; ret RNone
       | Fine n =>
           s <- get ;;
           let message_text :=
             "<pre>" ++ tabulate_count E n (max_open_trades (_CONF s)) ++ "</pre>" in
           logger DEBUG message_text ;;;
           send_msg message_text HTML ;;;
           ret RNone
       end).

Definition _help : Update -> M RetVal :=
  authorized_only "_help" (fun update => send_msg help_message MARKDOWN ;;; ret RNone).

Definition _version : Update -> M RetVal :=
  authorized_only "_version"
    (fun update =>
       send_msg ("*Version:* `" ++ version E ++ "`") MARKDOWN ;;; ret RNone).

(** *** Registration, as [init] does it *)

(** The [CommandHandler]s of [init], in order. *)
Definition handles : list (string * (Update -> M RetVal)) :=
  [ ("status", _status); ("profit", _profit); ("balance", _balance);
    ("start", _start); ("stop", _stop); ("forcesell", _forcesell);
    ("performance", _performance); ("daily", _daily); ("count", _count);
    ("config", _config); ("help", _help); ("version", _version) ].

Fixpoint lookup_handler (cmd : string)
  (hs : list (string * (Update -> M RetVal))) : option (Update -> M RetVal) :=
  match hs with
  | [] => None
  | (name, h) :: r => if String.eqb cmd name then Some h else lookup_handler cmd r
  end.

(** The command a text names: its first word, cut at an at-sign. *)
Fixpoint command_name (s : string) : string :=
  match s with
  | EmptyString => EmptyString
  | String c r =>
      if (is_space c || Ascii.eqb c "@")%bool then EmptyString
      else String c (command_name r)
  end.

(** Modelled from the spec: the routing of the chat library's dispatcher
    over the handlers that [init] registers (spec 4.2): a text that
    starts with a slash goes to the command handler of that name, a
    button press to the callback handler, other non-empty text to the
    free-text handler, and anything else is dropped.  The handler that
    is registered is run on the update; the result is what reaches the
    dispatcher. *)
Definition dispatch (update : Update) : M RetVal :=
  match update with
  | CallbackUpdate _ => _callback update
  | MessageUpdate m =>
      match text m with
      | EmptyString => ret RNone
      | String "/" r =>
          match lookup_handler (command_name r) handles with
          | Some h => h update
          | None => ret RNone
          end
      | _ => _message_handler update
      end
  end.

End Router.

(** The state after an update, and after a run of updates, each met by
    the backend as it then answers. *)
Definition step (E : Env) (s : State) (u : Update) : State := snd (dispatch E u s).

Fixpoint run (s : State) (l : list (Env * Update)) : State :=
  match l with
  | [] => s
  | (E, u) :: r => run (step E s u) r
  end.

(** ** Sample collaborators and states *)

Definition sample_env : Env :=
  mkEnv (Fine ["trade 1"]) (Fine "table") (fun _ _ _ => Fine "stats")
        (fun _ _ => Fine "profit") (fun _ => Fine "balance")
        (fun _ => Fine "pairs") (Fine "already stopped") (Fine "stopping")
        (fun _ => Fine "") (Fine "performance") (Fine 1%nat)
        (fun _ _ => "count") (fun _ => None) STATIC (fun _ => "0.05") "0.14.3".

(** The same backend, with every call reporting an error. *)
Definition failing_env : Env :=
  mkEnv (Failed "no active trade") (Failed "no active order")
        (fun _ _ _ => Failed "must be an integer greater than 0")
        (fun _ _ => Failed "no closed trade") (fun _ => Failed "")
        (fun _ => Failed "no pairs") (Failed "already running")
        (Failed "already stopped") (fun _ => Failed "Invalid argument.")
        (Failed "`trader is not running`") (Failed "`trader is not running`")
        (fun _ _ => "count") (fun _ => Some "Pair is not available")
        STATIC (fun _ => "0.05") "0.14.3".

(** The sample backend, with a daily profit that tells the number of
    days it was asked for. *)
Definition echo_env : Env :=
  mkEnv (Fine ["trade 1"]) (Fine "table")
        (fun timescale _ _ => Fine ("asked for " ++ str_of_int timescale ++ " days"))
        (fun _ _ => Fine "profit") (fun _ => Fine "balance")
        (fun _ => Fine "pairs") (Fine "already stopped") (Fine "stopping")
        (fun _ => Fine "") (Fine "performance") (Fine 1%nat)
        (fun _ _ => "count") (fun _ => None) STATIC (fun _ => "0.05") "0.14.3".

Definition sample_conf : Conf :=
  mkConf true 42 3 (float_of_decimal false 5 (-2)) "BTC" "USD"
         ["BTC_ETH"; "BTC_LTC"] [].

Definition sample_state : State := mkState sample_conf IDLE [] [] [].

Definition in_conversation (c : Conversation) (coins : list string)
  (tr : list Delivery) : State :=
  mkState sample_conf c coins tr [].

Definition text_from (chat : Z) (txt : string) : Update :=
  MessageUpdate (mkMessage chat 7 txt).

Definition button_from (chat : Z) (payload : string) : Update :=
  CallbackUpdate (mkQuery payload (mkMessage chat 7 "")).

(** ** Observations on traces *)

(** The calls made on the bot, in order. *)
Fixpoint bot_calls (evs : list Event) : list BotCall :=
  match evs with
  | [] => []
  | EvBot c _ :: r => c :: bot_calls r
  | _ :: r => bot_calls r
  end.

(** The configurations handed to [update_config], in order. *)
Fixpoint saved_confs (evs : list Event) : list Conf :=
  match evs with
  | [] => []
  | EvUpdateConfig c :: r => c :: saved_confs r
  | _ :: r => saved_confs r
  end.

(** What [send_msg] adds to the trace when the module is enabled, by the
    transport's coming outcomes. *)
Definition send_events (chat : Z) (msg : string) (pm : ParseMode)
  (tr : list Delivery) : list Event :=
  let call := send_message chat msg (Some pm) (ReplyKeyboardMarkup keyboard) in
  let giving_up e := EvLog WARNING ("TelegramError: " ++ e ++ "! Giving up on that message.") in
  match tr with
  | [] | Delivered :: _ => [EvBot call Delivered]
  | TelegramError e :: _ => [EvBot call (TelegramError e); giving_up e]
  | NetworkError e :: rest =>
      [EvBot call (NetworkError e);
       EvLog WARNING ("Telegram NetworkError: " ++ e ++ "! Trying one more time.");
       EvBot call (hd Delivered rest)]
      ++ match hd Delivered rest with
         | Delivered => []
         | NetworkError e2 | TelegramError e2 => [giving_up e2]
         end
  end.

(** How many outcomes of the transport [send_msg] uses up. *)
Definition send_uses (tr : list Delivery) : nat :=
  match tr with
  | NetworkError _ :: _ => 2
  | _ => 1
  end.

Definition after_send (s : State) (msg : string) (pm : ParseMode) : State :=
  if telegram_enabled (_CONF s)
  then mkState (_CONF s) (_CONVERSATION s) (_UPDATED_COINS s)
               (skipn (send_uses (transport s)) (transport s))
               (trace s ++ send_events (telegram_chat_id (_CONF s)) msg pm (transport s))
  else s.

(** The exceptions [authorized_only] logged, in order. *)
Fixpoint logged_exceptions (evs : list Event) : list Exn :=
  match evs with
  | [] => []
  | EvLogException _ e :: r => e :: logged_exceptions r
  | _ :: r => logged_exceptions r
  end.

(** ** Vocabulary of the statements *)

Definition retry_number : string :=
  "I don't understand that. Please ensure that you are entering a valid number.".

Definition retry_amount : string :=
  "I don't understand that. Please ensure that you are entering a valid amount.".

Definition saving : string :=
  "Success! Please wait while I am saving these changes to config file...".

(** The words that are [s] up to letter case, for a lower-case [s]. *)
Fixpoint case_variants (s : string) : list string :=
  match s with
  | EmptyString => [EmptyString]
  | String c r =>
      let vs := case_variants r in
      if is_lower c
      then (map (String c) vs ++ map (String (upper_char c)) vs)%list
      else map (String c) vs
  end.

(** The list the pair edit is about, by the list mode. *)
Definition edited_list (E : Env) (c : Conf) : list string :=
  match get_list_type E with
  | STATIC => pair_whitelist c
  | DYNAMIC => pair_blacklist c
  end.

(** The other list. *)
Definition other_list (E : Env) (c : Conf) : list string :=
  match get_list_type E with
  | STATIC => pair_blacklist c
  | DYNAMIC => pair_whitelist c
  end.

(** The payloads [_callback] compares with [==]. *)
Definition tokens : list string :=
  ["view_config"; "edit_config"; "edit_max_open_trades"; "edit_stake_amount";
   "edit_pairs"].

(** The configuration, the conversation state and the working pairs are
    the same in [s'] as in [s], and nothing more was handed to
    [update_config]. *)
Definition session_kept (s s' : State) : Prop :=
  _CONF s' = _CONF s /\ _CONVERSATION s' = _CONVERSATION s
  /\ _UPDATED_COINS s' = _UPDATED_COINS s
  /\ saved_confs (trace s') = saved_confs (trace s).

Definition keeps_session {A} (m : M A) : Prop :=
  forall s, session_kept s (snd (m s)).

(** The grid [_send_coins_for_deletion] builds: a button per working
    pair, three to a row, whose payload is "x_" and the symbol. *)
Definition coin_buttons (coins : list string) : Markup :=
  InlineKeyboardMarkup
    (build_menu (map (fun coin => mkButton coin ("x_" ++ coin)) coins) 3).

(** The call [_send_coins_for_deletion] makes on the bot in state [s]:
    a new message, or the edit of the message of the query. *)
Definition grid_call (txt : string) (q : option CallbackQuery) (s : State)
  : BotCall :=
  match q with
  | None => send_message (telegram_chat_id (_CONF s)) txt None
                         (coin_buttons (_UPDATED_COINS s))
  | Some q => edit_message_text txt (chat_id (message q)) (message_id (message q))
                                None (Some (coin_buttons (_UPDATED_COINS s)))
  end.

(** What a call on the bot hands back, by the transport's outcome. *)
Definition outcome_result (d : Delivery) : Result unit :=
  match d with
  | Delivered => Return tt
  | NetworkError m => Raise (ENetworkError m)
  | TelegramError m => Raise (ETelegramError m)
  end.

(** The state after the one call on the bot that sends the grid. *)
Definition after_grid (txt : string) (q : option CallbackQuery) (s : State)
  : State :=
  mkState (_CONF s) UPDATE_COINS (_UPDATED_COINS s) (tl (transport s))
          (trace s ++ [EvBot (grid_call txt q s) (hd Delivered (transport s))]).

(** The body of the loop of the [edit_pairs] branch, lines 262-264. *)
Definition seed_body (pair : string) : M unit :=
  match nth_error (split_once "_" pair) 1 with
  | None => raise EIndexError
  | Some coin => s1 <- get ;; set_UPDATED_COINS (_UPDATED_COINS s1 ++ [coin])
  end.

(** [coin] is what follows the first underscore of [pair]. *)
Definition coin_of (pair coin : string) : Prop :=
  nth_error (split_once "_" pair) 1 = Some coin.

(** An update that is not a press on "edit_pairs". *)
Definition not_edit_pairs (u : Update) : Prop :=
  match u with
  | CallbackUpdate q => data q <> "edit_pairs"
  | MessageUpdate _ => True
  end.

(** ** Properties *)

(** Unfolds the plumbing of the monad, leaving the module's own
    functions folded. *)
Ltac monad :=
  cbv beta iota delta [bind ret raise get emit logger set_CONF set_CONVERSATION
                       set_UPDATED_COINS message_text update_message
                       update_callback_query].

(** *** The string primitives on samples *)

Example upper_done : upper "dOne" = "DONE".
Proof. reflexivity. Qed.

Example py_int_samples :
  py_int "5" = Some 5 /\ py_int " -12 " = Some (-12) /\ py_int "1_000" = Some 1000
  /\ py_int "abc" = None /\ py_int "" = None /\ py_int "5.0" = None
  /\ py_int "1__0" = None /\ py_int "+ 5" = None
  /\ py_int (String (ascii_of_nat 28) "7") = None
  /\ py_int (String (ascii_of_nat 9) "7") = Some 7.
Proof. repeat split; reflexivity. Qed.

Example py_float_samples :
  py_float "0.1" = Some (SpecFloat.S754_finite false 7205759403792794 (-56))
  /\ py_float "-1.5" = Some (SpecFloat.S754_finite true 6755399441055744 (-52))
  /\ py_float "1e3" = Some (SpecFloat.S754_finite false 8796093022208000 (-43))
  /\ py_float "9007199254740993"
     = Some (SpecFloat.S754_finite false 4503599627370496 1)
  /\ py_float "1.7976931348623157e308"
     = Some (SpecFloat.S754_finite false 9007199254740991 971)
  /\ py_float "5e-324" = Some (SpecFloat.S754_finite false 1 (-1074))
  /\ py_float "1e400" = Some (PInf false)
  /\ py_float "1e-400" = Some (SpecFloat.S754_zero false)
  /\ py_float "-0.0" = Some (SpecFloat.S754_zero true)
  /\ py_float ".5" = py_float "0.5" /\ py_float "5." = py_float "5"
  /\ py_float "nan" = Some PNan /\ py_float "-Inf" = Some (PInf true)
  /\ py_float "." = None /\ py_float "abc" = None /\ py_float "1e" = None
  /\ py_float (String (ascii_of_nat 28) "7") = None.
Proof. vm_compute. repeat split. Qed.

Example split_samples :
  split_once "_" "BTC_ETH" = ["BTC"; "ETH"]
  /\ split_once "_" "x_A_B" = ["x"; "A_B"]
  /\ split_once "_" "ETH" = ["ETH"]
  /\ split_on " " " table" = [""; "table"]
  /\ delete_all "/daily" "/daily 3" = " 3"
  /\ delete_all "/daily" "/daily 3/daily" = " 3"
  /\ contains "x_" "ax_ETH" = true
  /\ str_of_int (-5) = "-5" /\ str_of_int 0 = "0".
Proof. repeat split; reflexivity. Qed.

Lemma bind_return {A B} (m : M A) (k : A -> M B) s a s' :
  m s = (Return a, s') -> bind m k s = k a s'.
Proof. intros H. unfold bind. rewrite H. reflexivity. Qed.

Lemma bind_raise {A B} (m : M A) (k : A -> M B) s e s' :
  m s = (Raise e, s') -> bind m k s = (Raise e, s').
Proof. intros H. unfold bind. rewrite H. reflexivity. Qed.

(** [send_msg] always returns, and does exactly [after_send]. *)
Lemma send_msg_spec msg pm s :
  send_msg msg pm s = (Return tt, after_send s msg pm).
Proof.
  unfold send_msg, after_send, is_enabled, bind, get, ret.
  destruct s as [c cv coins tr evs]; cbn [_CONF telegram_enabled].
  destruct (telegram_enabled c) eqn:En; cbn [negb]; [|reflexivity].
  unfold try_except, bind, get, bot, logger, emit, send_events, send_uses.
  cbn [_CONF _CONVERSATION _UPDATED_COINS transport trace].
  destruct tr as [|[|e|e] rest]; cbn; try reflexivity.
  - destruct rest as [|[|e2|e2] rest']; cbn; rewrite <- ?app_assoc; reflexivity.
  - rewrite <- app_assoc. reflexivity.
Qed.

Lemma bot_calls_app (a b : list Event) :
  bot_calls (a ++ b) = (bot_calls a ++ bot_calls b)%list.
Proof.
  induction a as [|ev a IH]; [reflexivity|].
  destruct ev; cbn; rewrite IH; reflexivity.
Qed.

Lemma saved_confs_app (a b : list Event) :
  saved_confs (a ++ b) = (saved_confs a ++ saved_confs b)%list.
Proof.
  induction a as [|ev a IH]; [reflexivity|].
  destruct ev; cbn; rewrite IH; reflexivity.
Qed.

(** The calls of one [send_msg]: the same call, once or twice. *)
Lemma bot_calls_send_events chat msg pm tr :
  bot_calls (send_events chat msg pm tr)
  = repeat (send_message chat msg (Some pm) (ReplyKeyboardMarkup keyboard))
           (send_uses tr).
Proof.
  destruct tr as [|[|e|e] rest]; try reflexivity.
  cbn. destruct (hd Delivered rest); reflexivity.
Qed.

Lemma saved_confs_send_events chat msg pm tr :
  saved_confs (send_events chat msg pm tr) = [].
Proof.
  destruct tr as [|[|e|e] rest]; try reflexivity.
  cbn. destruct (hd Delivered rest); reflexivity.
Qed.

Lemma send_uses_bounds tr : (1 <= send_uses tr <= 2)%nat.
Proof. destruct tr as [|[|e|e] rest]; cbn; lia. Qed.

(** The session part of the state is untouched by [send_msg]. *)
Lemma after_send_session s msg pm :
  _CONF (after_send s msg pm) = _CONF s
  /\ _CONVERSATION (after_send s msg pm) = _CONVERSATION s
  /\ _UPDATED_COINS (after_send s msg pm) = _UPDATED_COINS s.
Proof. unfold after_send. destruct (telegram_enabled (_CONF s)); auto. Qed.

(** C7. [send_msg] never hands an error to its caller. With the module
    enabled: when the first attempt fails with a network-class error it
    makes exactly one more attempt with the same arguments, and logs that
    it gives up when that one fails too (two attempts in all); when the
    first attempt fails with another transport error it makes no further
    attempt and logs that it gives up; otherwise there is the one
    attempt. *)
Theorem send_msg_retries_once (msg : string) (pm : ParseMode) (s : State)
  (Hon : telegram_enabled (_CONF s) = true) :
  let call := send_message (telegram_chat_id (_CONF s)) msg (Some pm)
                           (ReplyKeyboardMarkup keyboard) in
  let giving_up e :=
    EvLog WARNING ("TelegramError: " ++ e ++ "! Giving up on that message.") in
  let s' := snd (send_msg msg pm s) in
  fst (send_msg msg pm s) = Return tt
  /\ exists evs, trace s' = (trace s ++ evs)%list
     /\ match transport s with
        | NetworkError e :: rest =>
            bot_calls evs = [call; call]
            /\ match hd Delivered rest with
               | Delivered => last evs (giving_up "") = EvBot call Delivered
               | NetworkError e2 | TelegramError e2 =>
                   last evs (giving_up "") = giving_up e2
               end
        | TelegramError e :: _ =>
            bot_calls evs = [call] /\ last evs (giving_up "") = giving_up e
        | _ => evs = [EvBot call Delivered]
        end.
Proof.
  intros call giving_up s'. subst s'. rewrite send_msg_spec. cbn [fst snd].
  split; [reflexivity|]. unfold after_send. rewrite Hon. cbn [trace].
  eexists; split; [reflexivity|].
  destruct (transport s) as [|[|e|e] rest]; cbn; auto.
  destruct (hd Delivered rest); cbn; auto.
Qed.

Lemma send_msg_retries_once_witness :
  let s := in_conversation IDLE [] [NetworkError "reset"; NetworkError "reset"] in
  fst (send_msg "hello" MARKDOWN s) = Return tt
  /\ bot_calls (trace (snd (send_msg "hello" MARKDOWN s)))
     = [ send_message 42 "hello" (Some MARKDOWN) (ReplyKeyboardMarkup keyboard);
         send_message 42 "hello" (Some MARKDOWN) (ReplyKeyboardMarkup keyboard) ].
Proof.
  intros s.
  destruct (send_msg_retries_once "hello" MARKDOWN s eq_refl) as [R [evs [Ht Hc]]].
  split; [exact R|]. rewrite Ht. cbn in Hc. destruct Hc as [Hc _].
  rewrite bot_calls_app, Hc. reflexivity.
Defined.

(** A handler behind [authorized_only], called from the configured chat:
    the call is logged and the handler runs inside the [try]. *)
Lemma authorized_only_accepts name h m s :
  chat_id m = telegram_chat_id (_CONF s) ->
  authorized_only name h (MessageUpdate m) s
  = try_except (h (MessageUpdate m)) is_BaseException
      (fun e => emit (EvLogException "Exception occurred within Telegram module" e) ;;;
                ret RNone)
      (mkState (_CONF s) (_CONVERSATION s) (_UPDATED_COINS s) (transport s)
         (trace s ++ [EvLog INFO ("Executing handler: " ++ name ++ " for chat_id: "
                                  ++ str_of_int (telegram_chat_id (_CONF s)))])).
Proof.
  intros H. unfold authorized_only. cbn [update_message].
  unfold bind at 1. unfold get. rewrite H, Z.eqb_refl. cbn [negb].
  unfold bind, logger, emit. reflexivity.
Qed.

(** A handler behind [authorized_only], called from any other chat: the
    rejection is logged and nothing else happens. *)
Lemma authorized_only_rejects name h m s :
  chat_id m <> telegram_chat_id (_CONF s) ->
  authorized_only name h (MessageUpdate m) s
  = (Return RWrapper,
     mkState (_CONF s) (_CONVERSATION s) (_UPDATED_COINS s) (transport s)
       (trace s ++ [EvLog INFO ("Rejected unauthorized message from: "
                                ++ str_of_int (chat_id m))])).
Proof.
  intros H. unfold authorized_only. cbn [update_message].
  unfold bind at 1. unfold get.
  destruct (Z.eqb_spec (chat_id m) (telegram_chat_id (_CONF s))) as [Heq|_];
    [contradiction|].
  cbn [negb]. unfold bind, logger, emit, ret. reflexivity.
Qed.

(** No exception leaves a handler behind [authorized_only] on a message
    update. *)
Lemma authorized_only_catches name h m s :
  exists r s', authorized_only name h (MessageUpdate m) s = (Return r, s').
Proof.
  destruct (Z.eq_dec (chat_id m) (telegram_chat_id (_CONF s))) as [Heq|Hne].
  - rewrite (authorized_only_accepts _ _ _ _ Heq). unfold try_except.
    match goal with |- context [h ?u ?s0] => destruct (h u s0) as [[r|e] s1] end.
    + eauto.
    + cbn. unfold bind, emit, ret. eauto.
  - rewrite (authorized_only_rejects _ _ _ _ Hne). eauto.
Qed.

Lemma repeat_not_nil {A} (x : A) (n : nat) : (1 <= n)%nat -> repeat x n <> [].
Proof. destruct n; [lia|discriminate]. Qed.

(** C10. For [/start] and [/forcesell] from the configured chat, with
    the module enabled, the handler calls the bot if and only if the
    backend call answers with its error flag set; on success it sends
    nothing. *)
Theorem start_forcesell_reply_iff_error (E : Env) (m : Message) (s : State)
  (Hauth : chat_id m = telegram_chat_id (_CONF s))
  (Hon : telegram_enabled (_CONF s) = true) :
  let u := MessageUpdate m in
  let trade_id := strip (delete_all "/forcesell" (text m)) in
  (exists evs, trace (snd (_start E u s)) = (trace s ++ evs)%list
     /\ (bot_calls evs <> [] <-> error (rpc_start E) = true))
  /\ (exists evs, trace (snd (_forcesell E u s)) = (trace s ++ evs)%list
     /\ (bot_calls evs <> [] <-> error (rpc_forcesell E trade_id) = true)).
Proof.
  intros u trade_id. subst u. split.
  - unfold _start. rewrite (authorized_only_accepts _ _ _ _ Hauth).
    unfold try_except. destruct (rpc_start E) as [msg|ok].
    + unfold bind. rewrite send_msg_spec. unfold after_send, ret.
      cbn [_CONF]. rewrite Hon. cbn [snd trace]. rewrite <- app_assoc.
      eexists; split; [reflexivity|]. cbn [app bot_calls error].
      rewrite bot_calls_send_events. split; [reflexivity|intros _].
      apply repeat_not_nil, send_uses_bounds.
    + unfold ret. cbn [snd trace]. eexists; split; [reflexivity|].
      cbn. split; [congruence|discriminate].
  - unfold _forcesell. rewrite (authorized_only_accepts _ _ _ _ Hauth).
    unfold try_except. unfold message_text. cbn [update_message].
    unfold bind at 1. unfold ret at 1. fold trade_id.
    destruct (rpc_forcesell E trade_id) as [msg|ok].
    + unfold bind. rewrite send_msg_spec. unfold after_send, ret.
      cbn [_CONF]. rewrite Hon. cbn [snd trace]. rewrite <- app_assoc.
      eexists; split; [reflexivity|]. cbn [app bot_calls error].
      rewrite bot_calls_send_events. split; [reflexivity|intros _].
      apply repeat_not_nil, send_uses_bounds.
    + unfold ret. cbn [snd trace]. eexists; split; [reflexivity|].
      cbn. split; [congruence|discriminate].
Qed.

Lemma start_forcesell_reply_iff_error_witness :
  bot_calls (trace (snd (_start failing_env (text_from 42 "/start") sample_state)))
    <> []
  /\ bot_calls (trace (snd (_forcesell sample_env (text_from 42 "/forcesell 1")
                                       sample_state))) = [].
Proof.
  destruct (start_forcesell_reply_iff_error failing_env (mkMessage 42 7 "/start")
              sample_state eq_refl eq_refl) as [[evs [Ht Hiff]] _].
  destruct (start_forcesell_reply_iff_error sample_env (mkMessage 42 7 "/forcesell 1")
              sample_state eq_refl eq_refl) as [_ [evs' [Ht' Hiff']]].
  split.
  - unfold text_from. rewrite Ht. cbn [trace sample_state app].
    apply Hiff. reflexivity.
  - unfold text_from. rewrite Ht'. cbn [trace sample_state app].
    destruct (bot_calls evs') as [|c l] eqn:Hb; [reflexivity|].
    assert (Hne : c :: l <> []) by discriminate.
    apply Hiff' in Hne. discriminate Hne.
Defined.

(** [_process_config_update]: hands the configuration over, sends the
    acknowledgement, goes back to idle. *)
Lemma process_config_update_spec s :
  _process_config_update s
  = (Return tt,
     let s1 := after_send
                 (mkState (_CONF s) (_CONVERSATION s) (_UPDATED_COINS s)
                    (transport s) (trace s ++ [EvUpdateConfig (_CONF s)]))
                 saving MARKDOWN in
     mkState (_CONF s1) IDLE (_UPDATED_COINS s1) (transport s1) (trace s1)).
Proof.
  unfold _process_config_update, update_config. monad.
  rewrite send_msg_spec. reflexivity.
Qed.

(** What [_message_handler] does while the maximum trade count is
    awaited. *)
Lemma message_handler_max_trades E m s :
  _CONVERSATION s = MAX_OPEN_TRADES ->
  _message_handler E (MessageUpdate m) s
  = match py_int (text m) with
    | None => (Return RNone, after_send s retry_number MARKDOWN)
    | Some n =>
        let c := set_max_open_trades n (_CONF s) in
        let s1 := after_send
                    (mkState c (_CONVERSATION s) (_UPDATED_COINS s) (transport s)
                             (trace s ++ [EvUpdateConfig c]))
                    saving MARKDOWN in
        (Return RNone,
         mkState (_CONF s1) IDLE (_UPDATED_COINS s1) (transport s1) (trace s1))
    end.
Proof.
  intros Hconv. destruct s as [c cv coins tr evs]. cbn in Hconv. subst cv.
  unfold _message_handler. monad. cbn [_CONVERSATION _CONF].
  destruct (py_int (text m)) as [n|].
  - rewrite process_config_update_spec. reflexivity.
  - rewrite send_msg_spec. reflexivity.
Qed.

(** The same while the stake amount is awaited. *)
Lemma message_handler_stake_amount E m s :
  _CONVERSATION s = STAKE_AMOUNT ->
  _message_handler E (MessageUpdate m) s
  = match py_float (text m) with
    | None => (Return RNone, after_send s retry_amount MARKDOWN)
    | Some x =>
        let c := set_stake_amount x (_CONF s) in
        let s1 := after_send
                    (mkState c (_CONVERSATION s) (_UPDATED_COINS s) (transport s)
                             (trace s ++ [EvUpdateConfig c]))
                    saving MARKDOWN in
        (Return RNone,
         mkState (_CONF s1) IDLE (_UPDATED_COINS s1) (transport s1) (trace s1))
    end.
Proof.
  intros Hconv. destruct s as [c cv coins tr evs]. cbn in Hconv. subst cv.
  unfold _message_handler. monad. cbn [_CONVERSATION _CONF].
  destruct (py_float (text m)) as [x|].
  - rewrite process_config_update_spec. reflexivity.
  - rewrite send_msg_spec. reflexivity.
Qed.






(** ** Finishing the pair edit *)

Lemma run_app s l1 l2 : run s (l1 ++ l2) = run (run s l1) l2.
Proof.
  revert s. induction l1 as [|[E u] l1 IH]; intros s; [reflexivity|].
  cbn. apply IH.
Qed.

(** A case variant of "done" is free text, and upper-cases to DONE. *)
Lemma done_variants t :
  In t (case_variants "done") ->
  upper t = "DONE"
  /\ forall E m s, text m = t ->
       dispatch E (MessageUpdate m) s = _message_handler E (MessageUpdate m) s.
Proof.
  intros H. cbn in H.
  repeat (destruct H as [H|H]; [subst t; split; [reflexivity|];
                                intros E m s Ht; unfold dispatch; rewrite Ht;
                                reflexivity|]).
  contradiction.
Qed.

(** What [_handle_coin_updation] does with a text that upper-cases to
    DONE. *)
Lemma handle_coin_updation_done E m s :
  upper (text m) = "DONE" ->
  _handle_coin_updation E (MessageUpdate m) s
  = let new_list := map (fun coin => stake_currency (_CONF s) ++ "_" ++ coin)
                        (_UPDATED_COINS s) in
    let c := match get_list_type E with
             | STATIC => set_pair_whitelist new_list (_CONF s)
             | DYNAMIC => set_pair_blacklist new_list (_CONF s)
             end in
    let s1 := after_send
                (mkState c (_CONVERSATION s) (_UPDATED_COINS s) (transport s)
                         (trace s ++ [EvUpdateConfig c]))
                saving MARKDOWN in
    (Return RNone, mkState (_CONF s1) IDLE [] (transport s1) (trace s1)).
Proof.
  intros Hup. unfold _handle_coin_updation. monad. rewrite Hup.
  cbn [String.eqb Ascii.eqb Bool.eqb]. cbv beta iota.
  rewrite process_config_update_spec. reflexivity.
Qed.

(** While the pair edit is awaited, free text goes to
    [_handle_coin_updation]. *)
Lemma message_handler_update_coins E u s :
  _CONVERSATION s = UPDATE_COINS ->
  _message_handler E u s = _handle_coin_updation E u s.
Proof.
  intros Hconv. unfold _message_handler. monad. rewrite Hconv. reflexivity.
Qed.

(** C5. Whatever was done before, when the pair edit is awaited and the
    free text is "done" in some letter case, the list of the
    configuration that the list mode selects becomes the working pairs,
    in order, each prefixed with the stake currency and an underscore;
    this configuration is what the persistence call gets; the other list
    is untouched; afterwards there are no working pairs and the state is
    idle. *)
Theorem done_commits_working_pairs (s0 : State) (ops : list (Env * Update))
  (E : Env) (m : Message)
  (Hconv : _CONVERSATION (run s0 ops) = UPDATE_COINS)
  (Hdone : In (text m) (case_variants "done")) :
  let s := run s0 ops in
  let s' := run s0 (ops ++ [(E, MessageUpdate m)]) in
  edited_list E (_CONF s')
    = map (fun symbol => stake_currency (_CONF s) ++ "_" ++ symbol)
          (_UPDATED_COINS s)
  /\ other_list E (_CONF s') = other_list E (_CONF s)
  /\ (exists evs, trace s' = (trace s ++ EvUpdateConfig (_CONF s') :: evs)%list
                  /\ saved_confs evs = [])
  /\ _UPDATED_COINS s' = []
  /\ _CONVERSATION s' = IDLE.
Proof.
  intros s s'. subst s'. rewrite run_app. fold s. cbn [run]. unfold step.
  destruct (done_variants _ Hdone) as [Hup Hroute].
  rewrite (Hroute E m s eq_refl).
  rewrite (message_handler_update_coins E _ s Hconv),
          (handle_coin_updation_done E m s Hup).
  cbv zeta. unfold after_send, edited_list, other_list.
  destruct (get_list_type E);
    cbn [_CONF telegram_enabled set_pair_whitelist set_pair_blacklist];
    destruct (telegram_enabled (_CONF s));
    cbn [snd _CONF _CONVERSATION _UPDATED_COINS trace pair_whitelist
         pair_blacklist set_pair_whitelist set_pair_blacklist];
    repeat split;
    try (eexists; rewrite <- ?app_assoc; split;
         [reflexivity | first [apply saved_confs_send_events | reflexivity]]).
Qed.

Lemma done_commits_working_pairs_witness :
  let ops := [ (sample_env, button_from 42 "edit_pairs");
               (sample_env, text_from 42 "xrp");
               (sample_env, button_from 42 "x_LTC") ] in
  let s' := run sample_state (ops ++ [(sample_env, text_from 42 "Done")]) in
  pair_whitelist (_CONF s') = ["BTC_ETH"; "BTC_XRP"]
  /\ _UPDATED_COINS s' = [] /\ _CONVERSATION s' = IDLE.
Proof.
  intros ops s'.
  assert (Hd : In "Done" (case_variants "done")) by (vm_compute; tauto).
  destruct (done_commits_working_pairs sample_state ops sample_env
              (mkMessage 42 7 "Done") eq_refl Hd) as [H1 [_ [_ [H4 H5]]]].
  split; [|split; [exact H4|exact H5]].
  unfold edited_list in H1. cbn [get_list_type sample_env] in H1.
  etransitivity; [exact H1|]. reflexivity.
Defined.

(** ** The argument of /daily *)

Lemma delete_from_absent pat s :
  contains pat s = false -> delete_from pat 0 s = s.
Proof.
  induction s as [|c r IH]; intros H; [reflexivity|].
  cbn [contains] in H. cbn [delete_from].
  destruct (starts_with pat (String c r)); [discriminate|].
  rewrite (IH H). reflexivity.
Qed.

Lemma lstrip_length s : (String.length (lstrip s) <= String.length s)%nat.
Proof.
  induction s as [|c r IH]; cbn; [lia|].
  destruct (is_space c); cbn; lia.
Qed.

Lemma lstrip_idem s : lstrip (lstrip s) = lstrip s.
Proof.
  induction s as [|c r IH]; [reflexivity|].
  cbn [lstrip]. destruct (is_space c) eqn:Hc; [exact IH|].
  cbn [lstrip]. rewrite Hc. reflexivity.
Qed.

Lemma rstrip_idem s : rstrip (rstrip s) = rstrip s.
Proof.
  induction s as [|c r IH]; [reflexivity|].
  cbn [rstrip]. destruct (rstrip r) as [|d r'] eqn:Hr.
  - destruct (is_space c) eqn:Hc; [reflexivity|].
    cbn [rstrip]. rewrite Hc. reflexivity.
  - cbn [rstrip] in *. rewrite IH. reflexivity.
Qed.

(** Trimming on the right leaves a text without leading blanks
    without leading blanks. *)
Lemma lstrip_rstrip t : lstrip t = t -> lstrip (rstrip t) = rstrip t.
Proof.
  destruct t as [|c r]; [reflexivity|]. intros H.
  assert (Hc : is_space c = false).
  { destruct (is_space c) eqn:Hc; [|reflexivity]. cbn [lstrip] in H.
    rewrite Hc in H. pose proof (lstrip_length r) as L. rewrite H in L.
    cbn in L. lia. }
  cbn [rstrip]. destruct (rstrip r); [rewrite Hc|]; cbn [lstrip]; rewrite Hc;
    reflexivity.
Qed.

Lemma strip_idem s : strip (strip s) = strip s.
Proof.
  unfold strip. rewrite (lstrip_rstrip (lstrip s) (lstrip_idem s)).
  apply rstrip_idem.
Qed.

(** For the text "/daily" followed by an argument in which "/daily"
    does not occur again, the lookback is the integer that the argument,
    without the blanks around it, parses to, and 7 when it does not
    parse. *)
Lemma daily_lookback (arg : string)
  (Harg : contains "/daily" arg = false) :
  daily_timescale ("/daily" ++ arg)
  = match py_int (strip arg) with Some n => n | None => 7 end.
Proof.
  unfold daily_timescale.
  change (delete_all "/daily" ("/daily" ++ arg)) with (delete_from "/daily" 0 arg).
  rewrite (delete_from_absent _ _ Harg). reflexivity.
Qed.

Lemma daily_lookback_witness :
  daily_timescale "/daily" = 7 /\ daily_timescale "/daily 3" = 3
  /\ daily_timescale "/daily abc" = 7.
Proof.
  split; [|split].
  - exact (daily_lookback "" eq_refl).
  - exact (daily_lookback " 3" eq_refl).
  - exact (daily_lookback " abc" eq_refl).
Defined.

(** C8. The code at the failing inputs, from the configured chat and
    with a backend that answers with the number of days it was asked
    for. "/daily@freqbot 3": the argument is the integer 3, yet the
    backend is asked for 7 days, because only the text "/daily" is
    deleted and "@freqbot 3" is not an integer. "/daily 3/daily": the
    argument " 3/daily" is not an integer, yet the backend is asked for
    3 days, because every "/daily" is deleted. The three inputs the
    specification names behave as it says. *)
Theorem daily_misreads_its_argument :
  let asked txt :=
    bot_calls (trace (step echo_env sample_state (text_from 42 txt))) in
  let answer n :=
    [send_message 42 ("<b>Daily Profit over the last " ++ n ++ " days</b>:" ++ nl
                      ++ "<pre>asked for " ++ n ++ " days</pre>")
                  (Some HTML) (ReplyKeyboardMarkup keyboard)] in
  (py_int " 3" = Some 3 /\ asked "/daily@freqbot 3" = answer "7")
  /\ (py_int " 3/daily" = None /\ asked "/daily 3/daily" = answer "3")
  /\ (asked "/daily 3" = answer "3" /\ asked "/daily" = answer "7"
      /\ asked "/daily abc" = answer "7").
Proof. vm_compute. repeat split. Qed.

(** ** Callback payloads *)

Lemma not_token_eqb d t : ~ In d tokens -> In t tokens -> String.eqb d t = false.
Proof.
  intros Hn Ht. apply String.eqb_neq. intros ->. exact (Hn Ht).
Qed.

(** A payload in which "x_" occurs has something after its first
    underscore. *)
Lemma contains_x_has_coin d :
  contains "x_" d = true ->
  exists coin, nth_error (split_once "_" d) 1 = Some coin.
Proof.
  induction d as [|c r IH]; intros H; [discriminate|].
  cbn [contains] in H. cbn [split_once].
  destruct (Ascii.eqb c "_") eqn:Hc; [eexists; reflexivity|].
  destruct (starts_with "x_" (String c r)) eqn:Hs.
  - cbn [starts_with] in Hs. destruct r as [|b r']; [now destruct (Ascii.eqb "x" c)|].
    apply andb_prop in Hs. destruct Hs as [_ Hs]. apply andb_prop in Hs.
    destruct Hs as [Hb _]. apply Ascii.eqb_eq in Hb. subst b.
    cbn. eexists; reflexivity.
  - destruct (IH H) as [coin Hcoin].
    destruct (split_once "_" r) as [|w ws]; [discriminate|].
    exists coin. exact Hcoin.
Qed.

(** A payload that begins with "x_" has "x_" in it, and what follows its
    first underscore is what follows the prefix. *)
Lemma starts_with_x d :
  starts_with "x_" d = true ->
  contains "x_" d = true /\ nth_error (split_once "_" d) 1 = Some (drop 2 d).
Proof.
  intros H. split.
  - destruct d; cbn [contains]; rewrite H; reflexivity.
  - destruct d as [|c [|b r]]; cbn [starts_with] in H;
      try discriminate; try (now destruct (Ascii.eqb "x" c)).
    apply andb_prop in H. destruct H as [Hc H]. apply andb_prop in H.
    destruct H as [Hb _]. apply Ascii.eqb_eq in Hc, Hb. subst c b. reflexivity.
Qed.

(** C4, as the code has it. A payload that is none of the five tokens is
    handled as the removal of a pair if and only if "x_" occurs somewhere
    in it; the symbol is what follows the payload's first underscore,
    which for a payload beginning with "x_" is what follows that prefix.
    Every other payload is ignored: nothing is sent, logged or changed. *)
Theorem callback_payload_routing (E : Env) (q : CallbackQuery) (s : State)
  (Hunk : ~ In (data q) tokens) :
  if contains "x_" (data q)
  then exists coin,
         nth_error (split_once "_" (data q)) 1 = Some coin
         /\ _callback E (CallbackUpdate q) s = remove_coin E coin q s
         /\ (starts_with "x_" (data q) = true -> coin = drop 2 (data q))
  else _callback E (CallbackUpdate q) s = (Return RNone, s).
Proof.
  assert (Hcb : _callback E (CallbackUpdate q) s
                = if contains "x_" (data q)
                  then match nth_error (split_once "_" (data q)) 1 with
                       | None => (Raise EIndexError, s)
                       | Some coin => remove_coin E coin q s
                       end
                  else (Return RNone, s)).
  { unfold _callback. cbn [update_callback_query].
    rewrite !(not_token_eqb _ _ Hunk) by (cbn; tauto).
    destruct (contains "x_" (data q)); [|reflexivity].
    destruct (nth_error (split_once "_" (data q)) 1); reflexivity. }
  rewrite Hcb. destruct (contains "x_" (data q)) eqn:Hc; [|reflexivity].
  destruct (contains_x_has_coin _ Hc) as [coin Hcoin].
  exists coin. rewrite Hcoin. repeat split.
  intros Hs. apply starts_with_x in Hs. destruct Hs as [_ Hs]. congruence.
Qed.

Lemma callback_payload_routing_witness :
  _callback sample_env (button_from 42 "x_LTC")
            (in_conversation UPDATE_COINS ["ETH"; "LTC"] [])
  = remove_coin sample_env "LTC" (mkQuery "x_LTC" (mkMessage 42 7 ""))
                (in_conversation UPDATE_COINS ["ETH"; "LTC"] [])
  /\ _callback sample_env (button_from 42 "cancel") sample_state
     = (Return RNone, sample_state).
Proof.
  assert (H1 : ~ In "x_LTC" tokens)
    by (cbn; intros H; repeat (destruct H as [H|H]; [discriminate H|]); exact H).
  assert (H2 : ~ In "cancel" tokens)
    by (cbn; intros H; repeat (destruct H as [H|H]; [discriminate H|]); exact H).
  split.
  - pose proof (callback_payload_routing sample_env
                  (mkQuery "x_LTC" (mkMessage 42 7 ""))
                  (in_conversation UPDATE_COINS ["ETH"; "LTC"] []) H1) as H.
    cbn [data] in H. change (contains "x_" "x_LTC") with true in H.
    cbv beta iota in H. destruct H as [coin [Hc [Heq Hd]]].
    rewrite (Hd eq_refl) in Heq. exact Heq.
  - exact (callback_payload_routing sample_env
             (mkQuery "cancel" (mkMessage 42 7 "")) sample_state H2).
Defined.

(** C4, as stated, fails: "ax_ETH" is none of the tokens and does not
    begin with "x_", yet it is not ignored: ETH is removed from the working
    pairs and the button grid is sent again. *)
Lemma payload_with_inner_x_is_not_ignored :
  let u := button_from 42 "ax_ETH" in
  let s := in_conversation UPDATE_COINS ["ETH"; "LTC"] [] in
  ~ In "ax_ETH" tokens
  /\ starts_with "x_" "ax_ETH" = false
  /\ _UPDATED_COINS (snd (_callback sample_env u s)) = ["LTC"]
  /\ List.length (bot_calls (trace (snd (_callback sample_env u s)))) = 1%nat.
Proof.
  cbv zeta. split; [|vm_compute; repeat split].
  cbn. intros H. repeat (destruct H as [H|H]; [discriminate H|]). exact H.
Qed.

(** ** [authorized_only] and the handlers registered without it *)

(** Every command handler of [init] is an [authorized_only] wrapper. *)
Lemma handles_are_wrapped E cmd h :
  lookup_handler cmd (handles E) = Some h ->
  exists name body, h = authorized_only name body.
Proof.
  unfold handles. cbn [lookup_handler].
  repeat (destruct (String.eqb cmd _);
          [intros H; injection H as <-; eexists; eexists; reflexivity|]).
  discriminate.
Qed.

(** X6. A command from another chat than the configured one: nothing is
    sent, nothing is saved, and the session is as it was. *)
Lemma stranger_command_is_dropped E m r s :
  text m = String "/" r ->
  chat_id m <> telegram_chat_id (_CONF s) ->
  let s' := step E s (MessageUpdate m) in
  _CONF s' = _CONF s /\ _CONVERSATION s' = _CONVERSATION s
  /\ _UPDATED_COINS s' = _UPDATED_COINS s
  /\ bot_calls (trace s') = bot_calls (trace s)
  /\ saved_confs (trace s') = saved_confs (trace s).
Proof.
  intros Ht Hne. unfold step, dispatch. rewrite Ht.
  destruct (lookup_handler (command_name r) (handles E)) as [h|] eqn:Hl.
  - destruct (handles_are_wrapped _ _ _ Hl) as [name [body ->]].
    rewrite (authorized_only_rejects _ _ _ _ Hne).
    cbn [snd _CONF _CONVERSATION _UPDATED_COINS trace].
    rewrite bot_calls_app, saved_confs_app. cbn. rewrite !app_nil_r. auto.
  - cbn. auto.
Qed.

(** X7. No exception leaves the handler of a command, whatever the
    backend answers and the transport does. *)
Lemma command_handlers_never_raise E m r s :
  text m = String "/" r ->
  exists v s', dispatch E (MessageUpdate m) s = (Return v, s').
Proof.
  intros Ht. unfold dispatch. rewrite Ht.
  destruct (lookup_handler (command_name r) (handles E)) as [h|] eqn:Hl.
  - destruct (handles_are_wrapped _ _ _ Hl) as [name [body ->]].
    apply authorized_only_catches.
  - unfold ret. eauto.
Qed.

(** C1. The code at the failing inputs: free text and a button press
    from chat 666, where the configured chat is 42, are handled like the
    owner's: the text "9", while the maximum trade count is awaited, is
    committed and acknowledged; the button "edit_pairs" seeds the working
    pairs, moves the conversation and sends the button grid.  A command
    from the same chat is dropped. *)
Theorem stranger_text_and_button_are_handled :
  let stranger := 666 in
  let s1 := step sample_env (in_conversation MAX_OPEN_TRADES [] [])
                 (text_from stranger "9") in
  let s2 := step sample_env sample_state (button_from stranger "edit_pairs") in
  let s3 := step sample_env sample_state (text_from stranger "/stop") in
  (sender (text_from stranger "9") <> telegram_chat_id sample_conf
   /\ sender (button_from stranger "edit_pairs") <> telegram_chat_id sample_conf)
  /\ (max_open_trades (_CONF s1) = 9 /\ _CONVERSATION s1 = IDLE
      /\ saved_confs (trace s1) = [_CONF s1]
      /\ bot_calls (trace s1)
         = [send_message 42 saving (Some MARKDOWN) (ReplyKeyboardMarkup keyboard)])
  /\ (_UPDATED_COINS s2 = ["ETH"; "LTC"] /\ _CONVERSATION s2 = UPDATE_COINS
      /\ List.length (bot_calls (trace s2)) = 1%nat)
  /\ (bot_calls (trace s3) = [] /\ _CONF s3 = sample_conf
      /\ _CONVERSATION s3 = IDLE).
Proof. cbv zeta. split; [split; discriminate|]. vm_compute. repeat split. Qed.

(** C2. The code at the failing input: the button "edit_pairs" pressed
    twice, with the whitelist BTC_ETH, BTC_LTC, leaves every symbol twice
    in the working pairs, and "done" then commits the doubled list. *)
Theorem edit_pairs_twice_duplicates :
  let press := (sample_env, button_from 42 "edit_pairs") in
  let s := run sample_state [press; press] in
  let s' := run sample_state [press; press; (sample_env, text_from 42 "done")] in
  _UPDATED_COINS s = ["ETH"; "LTC"; "ETH"; "LTC"]
  /\ ~ NoDup (_UPDATED_COINS s)
  /\ pair_whitelist (_CONF s') = ["BTC_ETH"; "BTC_LTC"; "BTC_ETH"; "BTC_LTC"].
Proof.
  cbv zeta.
  assert (H : _UPDATED_COINS
                (run sample_state [(sample_env, button_from 42 "edit_pairs");
                                   (sample_env, button_from 42 "edit_pairs")])
              = ["ETH"; "LTC"; "ETH"; "LTC"]) by (vm_compute; reflexivity).
  split; [exact H|]. split; [|vm_compute; reflexivity].
  rewrite H. intros N. inversion N as [|x l Hin _]; subst.
  apply Hin. right. left. reflexivity.
Qed.

(** C3. The code at the failing inputs, all from the configured chat: a
    transport error while the button "edit_config" or the free text "xrp"
    is handled leaves the handler as an exception, unlogged; the same
    error under the command "/config" is caught and logged by [authorized_only]. *)
Theorem transport_error_leaves_ungated_handlers :
  let r1 := dispatch sample_env (button_from 42 "edit_config")
                     (in_conversation IDLE [] [NetworkError "reset"]) in
  let r2 := dispatch sample_env (text_from 42 "xrp")
                     (in_conversation UPDATE_COINS ["ETH"] [TelegramError "timed out"]) in
  let r3 := dispatch sample_env (text_from 42 "/config")
                     (in_conversation IDLE [] [NetworkError "reset"]) in
  (fst r1 = Raise (ENetworkError "reset") /\ logged_exceptions (trace (snd r1)) = [])
  /\ (fst r2 = Raise (ETelegramError "timed out")
      /\ logged_exceptions (trace (snd r2)) = [])
  /\ (fst r3 = Return RNone
      /\ logged_exceptions (trace (snd r3)) = [ENetworkError "reset"]).
Proof. vm_compute. repeat split. Qed.

(** ** What keeps the working pairs free of duplicates *)

Lemma remove_first_In x y l : In y (remove_first x l) -> In y l.
Proof.
  induction l as [|z l IH]; cbn; [tauto|].
  destruct (String.eqb x z); cbn; tauto.
Qed.

Lemma remove_first_NoDup x l : NoDup l -> NoDup (remove_first x l).
Proof.
  induction 1 as [|z l Hz Hl IH]; cbn; [constructor|].
  destruct (String.eqb x z); [exact Hl|].
  constructor; [|exact IH]. intros Hin. apply Hz.
  exact (remove_first_In _ _ _ Hin).
Qed.

Lemma mem_false x l : mem x l = false -> ~ In x l.
Proof.
  unfold mem. intros H Hin.
  assert (Ht : existsb (String.eqb x) l = true).
  { apply existsb_exists. exists x. split; [exact Hin|apply String.eqb_refl]. }
  congruence.
Qed.

Lemma NoDup_snoc (x : string) l : NoDup l -> ~ In x l -> NoDup (l ++ [x]).
Proof.
  induction 1 as [|z l Hz Hl IH]; intros Hx; cbn.
  - constructor; [tauto|constructor].
  - constructor.
    + rewrite in_app_iff. cbn. intros [H|[H|[]]]; [tauto|].
      subst. apply Hx. left. reflexivity.
    + apply IH. intros H. apply Hx. right. exact H.
Qed.

(** Sending the button grid does not touch the working pairs, whether
    the transport delivers or not. *)
Lemma send_coins_for_deletion_coins txt q s :
  _UPDATED_COINS (snd (_send_coins_for_deletion txt q s)) = _UPDATED_COINS s.
Proof.
  unfold _send_coins_for_deletion, _send_inline_keyboard_markup. monad.
  destruct q as [q|]; unfold bot; cbn [transport];
    destruct (hd Delivered (transport s)); reflexivity.
Qed.

(** A button press on a symbol keeps the working pairs free of
    duplicates. *)
Lemma remove_coin_keeps_NoDup E coin q s :
  NoDup (_UPDATED_COINS s) ->
  NoDup (_UPDATED_COINS (snd (remove_coin E coin q s))).
Proof.
  intros N. unfold remove_coin. monad. destruct (mem coin (_UPDATED_COINS s)).
  - match goal with
    | |- context [_send_coins_for_deletion ?t ?qq ?s1] =>
        pose proof (send_coins_for_deletion_coins t qq s1) as Hc;
        destruct (_send_coins_for_deletion t qq s1) as [[a|e] s2]
    end; cbn [snd _UPDATED_COINS] in *; rewrite Hc;
      apply remove_first_NoDup; exact N.
  - rewrite send_msg_spec. cbn [snd].
    destruct (after_send_session s
                (upper coin ++ " has already been removed from the list")
                MARKDOWN) as [_ [_ Hc]].
    rewrite Hc. exact N.
Qed.

(** Free text keeps the working pairs free of duplicates, in every
    conversation state. *)
Lemma free_text_keeps_NoDup E m s :
  NoDup (_UPDATED_COINS s) ->
  NoDup (_UPDATED_COINS (snd (_message_handler E (MessageUpdate m) s))).
Proof.
  intros N. destruct (_CONVERSATION s) eqn:Hconv.
  - unfold _message_handler. monad. rewrite Hconv. exact N.
  - rewrite (message_handler_max_trades E m s Hconv).
    destruct (py_int (text m)); cbv zeta; unfold after_send; cbn [_CONF];
      match goal with |- context [telegram_enabled ?c] =>
        destruct (telegram_enabled c) end; exact N.
  - rewrite (message_handler_stake_amount E m s Hconv).
    destruct (py_float (text m)); cbv zeta; unfold after_send; cbn [_CONF];
      match goal with |- context [telegram_enabled ?c] =>
        destruct (telegram_enabled c) end; exact N.
  - rewrite (message_handler_update_coins E _ s Hconv).
    destruct (String.eqb (upper (text m)) "DONE") eqn:Hd.
    + apply String.eqb_eq in Hd.
      rewrite (handle_coin_updation_done E m s Hd). cbn. constructor.
    + unfold _handle_coin_updation. monad. rewrite Hd.
      destruct (mem (upper (text m)) (_UPDATED_COINS s)) eqn:Hm.
      * rewrite send_msg_spec. cbn [snd].
        match goal with |- context [after_send s ?t ?p] =>
          destruct (after_send_session s t p) as [_ [_ Hc]] end.
        rewrite Hc. exact N.
      * destruct (validate_pairs E _);
          match goal with
          | |- context [_send_coins_for_deletion ?t ?qq ?s1] =>
              pose proof (send_coins_for_deletion_coins t qq s1) as Hc;
              destruct (_send_coins_for_deletion t qq s1) as [[a|e] s2]
          end; cbn [snd _UPDATED_COINS] in *; rewrite Hc;
          try exact N;
          (apply NoDup_snoc; [exact N|apply mem_false; exact Hm]).
Qed.

(** ** The button grid *)

Lemma slices_concat {A} (n_cols : nat) :
  (1 <= n_cols)%nat ->
  forall (fuel : nat) (buttons : list A),
    (List.length buttons <= fuel)%nat ->
    List.concat (slices fuel n_cols buttons) = buttons.
Proof.
  intros Hn. induction fuel as [|f IH]; intros buttons Hlen.
  - destruct buttons; [reflexivity|cbn in Hlen; lia].
  - destruct buttons as [|b r]; [reflexivity|].
    cbn [slices List.concat]. rewrite IH.
    + apply firstn_skipn.
    + rewrite length_skipn. cbn [List.length] in *. lia.
Qed.

Lemma slices_rows {A} (n_cols : nat) :
  (1 <= n_cols)%nat ->
  forall (fuel : nat) (buttons : list A),
    Forall (fun row => (1 <= List.length row <= n_cols)%nat)
           (slices fuel n_cols buttons).
Proof.
  intros Hn. induction fuel as [|f IH]; intros buttons; [constructor|].
  destruct buttons as [|b r]; [constructor|].
  cbn [slices]. constructor; [|apply IH].
  rewrite length_firstn. cbn [List.length]. lia.
Qed.

Lemma slices_nil_iff {A} (fuel n_cols : nat) (buttons : list A) :
  (List.length buttons <= fuel)%nat ->
  slices fuel n_cols buttons = [] -> buttons = [].
Proof.
  destruct fuel, buttons; cbn; intros; try reflexivity; try lia; discriminate.
Qed.

Lemma slices_full_rows {A} (n_cols : nat) :
  forall (fuel : nat) (buttons : list A) (i : nat) (row : list A),
    (1 <= n_cols)%nat ->
    (List.length buttons <= fuel)%nat ->
    nth_error (slices fuel n_cols buttons) i = Some row ->
    (S i < List.length (slices fuel n_cols buttons))%nat ->
    List.length row = n_cols.
Proof.
  induction fuel as [|f IH]; intros buttons i row Hn Hlen Hrow Hi;
    [cbn in Hi; lia|].
  destruct buttons as [|b r]; [cbn in Hi; lia|].
  cbn [slices] in *.
  assert (Hrest : (List.length (skipn n_cols (b :: r)) <= f)%nat).
  { rewrite length_skipn. cbn [List.length] in *. lia. }
  destruct i as [|j].
  - cbn in Hrow. injection Hrow as <-. rewrite length_firstn.
    destruct (slices f n_cols (skipn n_cols (b :: r))) as [|x xs] eqn:Hs;
      [cbn in Hi; lia|].
    assert (Hne : skipn n_cols (b :: r) <> []).
    { intros He. rewrite He in Hs. destruct f; discriminate. }
    assert (Hl : (List.length (skipn n_cols (b :: r)) <> 0)%nat).
    { intros H0. apply Hne. now apply length_zero_iff_nil. }
    rewrite length_skipn in Hl. lia.
  - cbn [nth_error] in Hrow. cbn [List.length] in Hi.
    apply (IH _ j row Hn Hrest Hrow). lia.
Qed.

(** X1. [build_menu] loses, repeats and reorders nothing: for a column
    count of at least one, the rows put end to end are the buttons it was
    given. *)
Theorem build_menu_keeps_buttons {A} (buttons : list A) (n_cols : nat)
  (Hn : (1 <= n_cols)%nat) :
  List.concat (build_menu buttons n_cols) = buttons.
Proof. unfold build_menu. apply slices_concat; [exact Hn|lia]. Qed.

Lemma build_menu_keeps_buttons_witness :
  List.concat (build_menu ["ETH"; "LTC"; "XRP"; "ADA"] 3) = ["ETH"; "LTC"; "XRP"; "ADA"].
Proof. apply (build_menu_keeps_buttons ["ETH"; "LTC"; "XRP"; "ADA"] 3). lia. Defined.

(** X2. The rows of [build_menu], for a column count of at least one:
    no row is empty, no row is longer than the column count, and every
    row but the last is full. *)
Theorem build_menu_row_sizes {A} (buttons : list A) (n_cols : nat)
  (Hn : (1 <= n_cols)%nat) :
  Forall (fun row => (1 <= List.length row <= n_cols)%nat)
         (build_menu buttons n_cols)
  /\ forall i row,
       nth_error (build_menu buttons n_cols) i = Some row ->
       (S i < List.length (build_menu buttons n_cols))%nat ->
       List.length row = n_cols.
Proof.
  unfold build_menu. split.
  - apply slices_rows. exact Hn.
  - intros i row Hrow Hi.
    apply (slices_full_rows n_cols _ buttons i row Hn (le_n _) Hrow Hi).
Qed.

Lemma build_menu_row_sizes_witness :
  Forall (fun row => (1 <= List.length row <= 3)%nat)
         (build_menu ["ETH"; "LTC"; "XRP"; "ADA"] 3).
Proof.
  assert (H3 : (1 <= 3)%nat) by lia.
  exact (proj1 (build_menu_row_sizes ["ETH"; "LTC"; "XRP"; "ADA"] 3 H3)).
Defined.

(** ** What leaves the session alone *)

Lemma session_kept_refl s : session_kept s s.
Proof. repeat split. Qed.

Lemma session_kept_trans s1 s2 s3 :
  session_kept s1 s2 -> session_kept s2 s3 -> session_kept s1 s3.
Proof.
  intros [A1 [A2 [A3 A4]]] [B1 [B2 [B3 B4]]].
  repeat split; congruence.
Qed.

Lemma keeps_ret {A} (a : A) : keeps_session (ret a).
Proof. intros s. apply session_kept_refl. Qed.

Lemma keeps_raise {A} (e : Exn) : keeps_session (@raise A e).
Proof. intros s. apply session_kept_refl. Qed.

Lemma keeps_get : keeps_session get.
Proof. intros s. apply session_kept_refl. Qed.

Lemma keeps_bind {A B} (m : M A) (k : A -> M B) :
  keeps_session m -> (forall a, keeps_session (k a)) -> keeps_session (bind m k).
Proof.
  intros Hm Hk s. unfold bind. specialize (Hm s).
  destruct (m s) as [[a|e] s1]; cbn [snd] in *; [|exact Hm].
  exact (session_kept_trans _ _ _ Hm (Hk a s1)).
Qed.

Lemma keeps_try {A} (m : M A) catches (h : Exn -> M A) :
  keeps_session m -> (forall e, keeps_session (h e)) ->
  keeps_session (try_except m catches h).
Proof.
  intros Hm Hh s. unfold try_except. specialize (Hm s).
  destruct (m s) as [[a|e] s1]; cbn [snd] in *; [exact Hm|].
  destruct (catches e); [|exact Hm].
  exact (session_kept_trans _ _ _ Hm (Hh e s1)).
Qed.

Lemma keeps_logger lvl msg : keeps_session (logger lvl msg).
Proof.
  intros s. unfold logger, emit, session_kept. cbn.
  rewrite saved_confs_app. cbn. rewrite app_nil_r. auto.
Qed.

Lemma keeps_log_exception msg e : keeps_session (emit (EvLogException msg e)).
Proof.
  intros s. unfold emit, session_kept. cbn.
  rewrite saved_confs_app. cbn. rewrite app_nil_r. auto.
Qed.

Lemma keeps_bot call : keeps_session (bot call).
Proof.
  intros s. unfold bot, session_kept.
  destruct (hd Delivered (transport s)); cbn;
    rewrite saved_confs_app; cbn; rewrite app_nil_r; auto.
Qed.

Lemma keeps_send_msg msg pm : keeps_session (send_msg msg pm).
Proof.
  intros s. rewrite send_msg_spec. cbn [snd]. unfold after_send, session_kept.
  destruct (telegram_enabled (_CONF s)); cbn; [|auto].
  rewrite saved_confs_app, saved_confs_send_events, app_nil_r. auto.
Qed.

Lemma keeps_for_each {A} (l : list A) (body : A -> M unit) :
  (forall x, keeps_session (body x)) -> keeps_session (for_each l body).
Proof.
  intros Hb. induction l as [|x r IH]; cbn [for_each].
  - apply keeps_ret.
  - apply keeps_bind; [apply Hb|intros _; exact IH].
Qed.

Lemma keeps_message_text u : keeps_session (message_text u).
Proof.
  unfold message_text. destruct (update_message u);
    [apply keeps_ret|apply keeps_raise].
Qed.

Lemma keeps_send_inline buttons txt n q :
  keeps_session (_send_inline_keyboard_markup buttons txt n q).
Proof.
  unfold _send_inline_keyboard_markup.
  apply keeps_bind; [apply keeps_get|intros s0].
  destruct q; apply keeps_bot.
Qed.

Lemma keeps_authorized_only name h u :
  keeps_session (h u) -> keeps_session (authorized_only name h u).
Proof.
  intros Hh. unfold authorized_only.
  destruct (update_message u) as [msg|]; [|apply keeps_raise].
  apply keeps_bind; [apply keeps_get|intros s0].
  destruct (negb _).
  - apply keeps_bind; [apply keeps_logger|intros _; apply keeps_ret].
  - apply keeps_bind; [apply keeps_logger|intros _].
    apply keeps_try; [exact Hh|intros e].
    apply keeps_bind; [apply keeps_log_exception|intros _; apply keeps_ret].
Qed.

(** Applies the lemmas above along the structure of a handler. *)
Ltac keeps :=
  repeat first
    [ apply keeps_ret | apply keeps_raise | apply keeps_get
    | apply keeps_logger | apply keeps_send_msg | apply keeps_bot
    | apply keeps_send_inline | apply keeps_message_text
    | apply keeps_authorized_only
    | apply keeps_for_each; intros ?
    | apply keeps_bind; [|intros ?]
    | match goal with
      | |- keeps_session (let _ := _ in _) => cbv zeta
      | |- keeps_session (match ?x with _ => _ end) => destruct x
      | |- keeps_session (if ?x then _ else _) => destruct x
      end ].

(** Every command handler of [init] leaves the session alone. *)
Lemma handles_keep_session E cmd h u :
  lookup_handler cmd (handles E) = Some h -> keeps_session (h u).
Proof.
  unfold handles. cbn [lookup_handler].
  repeat (destruct (String.eqb cmd _);
          [intros H; injection H as <-;
           cbv delta [_status _status_table _profit _balance _start _stop
                      _forcesell _performance _daily _count _config _help
                      _version];
           solve [keeps]|]).
  discriminate.
Qed.

(** X3. With the module disabled [send_msg] does nothing at all: it
    returns, no call is made on the bot, nothing is logged, and no
    outcome of the transport is used up. *)
Theorem send_msg_disabled (msg : string) (pm : ParseMode) (s : State)
  (Hoff : telegram_enabled (_CONF s) = false) :
  send_msg msg pm s = (Return tt, s).
Proof. rewrite send_msg_spec. unfold after_send. rewrite Hoff. reflexivity. Qed.

Lemma send_msg_disabled_witness :
  let s := mkState (mkConf false 42 3 PNan "BTC" "USD" [] []) IDLE []
                   [NetworkError "reset"] [] in
  send_msg "hello" HTML s = (Return tt, s).
Proof. intros s. apply (send_msg_disabled "hello" HTML s). reflexivity. Defined.

(** X4. Whatever the transport does, [send_msg] returns normally, leaves
    the configuration, the conversation state and the working pairs as
    they are, only adds to the trace, makes at most two calls on the bot,
    and uses up one outcome of the transport per call. *)
Theorem send_msg_frame (msg : string) (pm : ParseMode) (s : State) :
  let s' := snd (send_msg msg pm s) in
  fst (send_msg msg pm s) = Return tt
  /\ session_kept s s'
  /\ exists evs, trace s' = (trace s ++ evs)%list
       /\ (List.length (bot_calls evs) <= 2)%nat
       /\ transport s' = skipn (List.length (bot_calls evs)) (transport s).
Proof.
  cbv zeta. split; [rewrite send_msg_spec; reflexivity|].
  split; [apply keeps_send_msg|].
  rewrite send_msg_spec. cbn [snd]. unfold after_send.
  destruct (telegram_enabled (_CONF s)).
  - eexists. split; [reflexivity|]. rewrite bot_calls_send_events, repeat_length.
    split; [apply send_uses_bounds|reflexivity].
  - exists []. rewrite app_nil_r. repeat split. cbn. lia.
Qed.

(** X5. No command changes the session: whatever the text after the
    slash, whoever sends it and whatever the backend and the transport
    do, the configuration, the conversation state and the working pairs
    are the same afterwards, and nothing is handed to [update_config]. *)
Theorem commands_keep_session (E : Env) (m : Message) (r : string) (s : State)
  (Ht : text m = String "/" r) :
  session_kept s (step E s (MessageUpdate m)).
Proof.
  unfold step, dispatch. rewrite Ht.
  destruct (lookup_handler (command_name r) (handles E)) as [h|] eqn:Hl.
  - exact (handles_keep_session E _ h (MessageUpdate m) Hl s).
  - apply session_kept_refl.
Qed.

Lemma commands_keep_session_witness :
  _CONVERSATION (step failing_env (in_conversation STAKE_AMOUNT ["ETH"] [])
                      (text_from 42 "/status table")) = STAKE_AMOUNT.
Proof.
  destruct (commands_keep_session failing_env (mkMessage 42 7 "/status table")
              "status table"%string (in_conversation STAKE_AMOUNT ["ETH"] []))
    as [_ [H _]].
  - reflexivity.
  - exact H.
Defined.

Lemma stranger_command_is_dropped_witness :
  bot_calls (trace (step sample_env sample_state (text_from 666 "/forcesell all")))
  = [].
Proof.
  assert (Hne : chat_id (mkMessage 666 7 "/forcesell all")
                <> telegram_chat_id (_CONF sample_state)) by discriminate.
  destruct (stranger_command_is_dropped sample_env (mkMessage 666 7 "/forcesell all")
              "forcesell all" sample_state eq_refl Hne) as [_ [_ [_ [H _]]]].
  exact H.
Defined.

Lemma command_handlers_never_raise_witness :
  exists v s',
    dispatch sample_env (text_from 42 "/config")
             (in_conversation IDLE [] [TelegramError "timed out"])
    = (Return v, s').
Proof.
  exact (command_handlers_never_raise sample_env (mkMessage 42 7 "/config")
           "config" (in_conversation IDLE [] [TelegramError "timed out"]) eq_refl).
Defined.

(** X8. [request_input] moves the conversation to the state it is given
    and hands back [MESSAGE_HANDLER] whether or not the prompt could be
    delivered; it changes neither the configuration nor the working
    pairs, and what it sends is the prompt with the current value of the
    key. *)
Theorem request_input_effect (E : Env) (key : Key) (title : string)
  (conv : Conversation) (s : State) :
  let s' := snd (request_input E key title conv s) in
  let prompt := ("Okay, give me new value for " ++ title ++ "." ++ nl ++
                 "Current value for " ++ title ++ " is <b>"
                 ++ conf_item E key (_CONF s) ++ "</b>")%string in
  fst (request_input E key title conv s) = Return RMESSAGE_HANDLER
  /\ _CONVERSATION s' = conv
  /\ _CONF s' = _CONF s /\ _UPDATED_COINS s' = _UPDATED_COINS s
  /\ saved_confs (trace s') = saved_confs (trace s)
  /\ exists evs, trace s' = (trace s ++ evs)%list
       /\ forall call, In call (bot_calls evs) ->
            call = send_message (telegram_chat_id (_CONF s)) prompt (Some HTML)
                                (ReplyKeyboardMarkup keyboard).
Proof.
  cbv zeta. unfold request_input. monad. rewrite send_msg_spec.
  cbn [fst snd _CONF _CONVERSATION _UPDATED_COINS trace].
  destruct (keeps_send_msg
              ("Okay, give me new value for " ++ title ++ "." ++ nl ++
               "Current value for " ++ title ++ " is <b>"
               ++ conf_item E key (_CONF s) ++ "</b>") HTML s)
    as [K1 [K2 [K3 K4]]].
  rewrite send_msg_spec in K1, K3, K4. cbn [snd] in K1, K3, K4.
  repeat split; try assumption.
  unfold after_send. destruct (telegram_enabled (_CONF s)); cbn [trace].
  - eexists. split; [reflexivity|]. rewrite bot_calls_send_events.
    intros call Hin. apply repeat_spec in Hin. exact Hin.
  - exists []. rewrite app_nil_r. split; [reflexivity|]. intros call [].
Qed.

(** X9. [/stop] from the configured chat, with the module enabled,
    always answers with the backend's text, whether the backend reports
    an error or not. *)
Theorem stop_always_replies (E : Env) (m : Message) (s : State)
  (Hauth : chat_id m = telegram_chat_id (_CONF s))
  (Hon : telegram_enabled (_CONF s) = true) :
  let answer := match rpc_stop E with Failed msg | Fine msg => msg end in
  exists evs k,
    trace (snd (_stop E (MessageUpdate m) s)) = (trace s ++ evs)%list
    /\ (1 <= k <= 2)%nat
    /\ bot_calls evs
       = repeat (send_message (telegram_chat_id (_CONF s)) answer (Some MARKDOWN)
                              (ReplyKeyboardMarkup keyboard)) k.
Proof.
  cbv zeta. unfold _stop. rewrite (authorized_only_accepts _ _ _ _ Hauth).
  unfold try_except.
  destruct (rpc_stop E) as [msg|msg]; unfold bind; rewrite send_msg_spec;
    unfold after_send, ret; cbn [_CONF]; rewrite Hon; cbn [snd trace];
    rewrite <- app_assoc; eexists; exists (send_uses (transport s));
    (split; [reflexivity|]); (split; [apply send_uses_bounds|]);
    cbn [app bot_calls]; apply bot_calls_send_events.
Qed.

Lemma stop_always_replies_witness :
  exists evs k,
    trace (snd (_stop sample_env (text_from 42 "/stop") sample_state))
    = (trace sample_state ++ evs)%list
    /\ (1 <= k <= 2)%nat
    /\ bot_calls evs
       = repeat (send_message 42 "stopping" (Some MARKDOWN)
                              (ReplyKeyboardMarkup keyboard)) k.
Proof.
  exact (stop_always_replies sample_env (mkMessage 42 7 "/stop") sample_state
           eq_refl eq_refl).
Defined.

(** ** The pair list editor *)

Lemma send_coins_for_deletion_spec txt q s :
  _send_coins_for_deletion txt q s
  = (outcome_result (hd Delivered (transport s)), after_grid txt q s).
Proof.
  unfold _send_coins_for_deletion, _send_inline_keyboard_markup, after_grid,
    grid_call, coin_buttons.
  monad. destruct q as [q|]; unfold bot; cbn [transport _CONF _UPDATED_COINS];
    destruct (hd Delivered (transport s)); reflexivity.
Qed.

(** X10. A press on the button of a symbol. When the symbol is among
    the working pairs, its first occurrence is removed (the list is one
    shorter), the conversation is in the pair edit, and the message of
    the buttons is edited once to show the grid of the pairs that are
    left. When it is not, the working pairs and the conversation state
    stay as they are and only the notice that it was already removed is
    sent. The configuration is untouched and nothing is saved in either
    case. *)
Theorem remove_coin_effect (E : Env) (coin : string) (q : CallbackQuery)
  (s : State) :
  let s' := snd (remove_coin E coin q s) in
  _CONF s' = _CONF s
  /\ saved_confs (trace s') = saved_confs (trace s)
  /\ if mem coin (_UPDATED_COINS s)
     then _UPDATED_COINS s' = remove_first coin (_UPDATED_COINS s)
          /\ S (List.length (_UPDATED_COINS s')) = List.length (_UPDATED_COINS s)
          /\ _CONVERSATION s' = UPDATE_COINS
          /\ exists txt outcome,
               trace s'
               = (trace s
                  ++ [EvBot (edit_message_text txt (chat_id (message q))
                               (message_id (message q)) None
                               (Some (coin_buttons
                                        (remove_first coin (_UPDATED_COINS s)))))
                            outcome])%list
     else fst (remove_coin E coin q s) = Return RNone
          /\ _UPDATED_COINS s' = _UPDATED_COINS s
          /\ _CONVERSATION s' = _CONVERSATION s
          /\ exists evs, trace s' = (trace s ++ evs)%list
               /\ forall call, In call (bot_calls evs) ->
                    call = send_message (telegram_chat_id (_CONF s))
                             (upper coin ++ " has already been removed from the list")
                             (Some MARKDOWN) (ReplyKeyboardMarkup keyboard).
Proof.
  cbv zeta. unfold remove_coin. monad.
  destruct (mem coin (_UPDATED_COINS s)) eqn:Hm.
  - rewrite send_coins_for_deletion_spec. unfold after_grid, grid_call.
    cbn [_CONF _CONVERSATION _UPDATED_COINS transport trace].
    assert (Hlen : S (List.length (remove_first coin (_UPDATED_COINS s)))
                   = List.length (_UPDATED_COINS s)).
    { unfold mem in Hm. induction (_UPDATED_COINS s) as [|y l IH];
        [discriminate|]. cbn [existsb] in Hm. cbn [remove_first].
      destruct (String.eqb coin y); [reflexivity|].
      cbn [orb] in Hm. cbn [List.length]. rewrite (IH Hm). reflexivity. }
    destruct (hd Delivered (transport s));
      cbn [outcome_result snd _CONF _CONVERSATION _UPDATED_COINS trace];
      rewrite saved_confs_app; cbn [saved_confs]; rewrite app_nil_r;
      repeat split; try exact Hlen; eexists; eexists; reflexivity.
  - rewrite send_msg_spec. cbn [fst snd].
    destruct (keeps_send_msg
                (upper coin ++ " has already been removed from the list")
                MARKDOWN s) as [K1 [K2 [K3 K4]]].
    rewrite send_msg_spec in K1, K2, K3, K4. cbn [snd] in K1, K2, K3, K4.
    repeat split; try assumption.
    unfold after_send. destruct (telegram_enabled (_CONF s)); cbn [trace].
    + eexists. split; [reflexivity|]. rewrite bot_calls_send_events.
      intros call Hin. apply repeat_spec in Hin. exact Hin.
    + exists []. rewrite app_nil_r. split; [reflexivity|]. intros call [].
Qed.

(** X11. Every button of the grid leads back to its symbol: a button
    that [_send_coins_for_deletion] renders for the working pairs shows
    one of them, and a press with its payload is handled as the removal
    of exactly the symbol it shows. *)
Theorem grid_button_removes_its_coin (E : Env) (coins : list string)
  (row : list InlineKeyboardButton) (b : InlineKeyboardButton)
  (msg : Message) (s : State)
  (Hrow : In row (build_menu (map (fun coin => mkButton coin ("x_" ++ coin)) coins) 3))
  (Hb : In b row) :
  In (button_text b) coins
  /\ _callback E (CallbackUpdate (mkQuery (callback_data b) msg)) s
     = remove_coin E (button_text b) (mkQuery (callback_data b) msg) s.
Proof.
  assert (Hin : In b (map (fun coin => mkButton coin ("x_" ++ coin)) coins)).
  { rewrite <- (slices_concat 3 ltac:(lia) _ _ (le_n _)).
    apply in_concat. exists row. split; assumption. }
  apply in_map_iff in Hin. destruct Hin as [coin [<- Hc]].
  split; [exact Hc|reflexivity].
Qed.

Lemma grid_button_removes_its_coin_witness :
  _callback sample_env (button_from 42 "x_LTC") sample_state
  = remove_coin sample_env "LTC" (mkQuery "x_LTC" (mkMessage 42 7 "")) sample_state.
Proof.
  refine (proj2 (grid_button_removes_its_coin sample_env ["ETH"; "LTC"]
                   [mkButton "ETH" "x_ETH"; mkButton "LTC" "x_LTC"]
                   (mkButton "LTC" "x_LTC") (mkMessage 42 7 "") sample_state _ _)).
  - left. reflexivity.
  - right. left. reflexivity.
Defined.

Lemma upper_char_D c : upper_char c = "D"%char -> c = "d"%char \/ c = "D"%char.
Proof.
  destruct c as [[] [] [] [] [] [] [] []]; vm_compute; intros H;
    first [discriminate H | now left | now right].
Qed.

Lemma upper_char_O c : upper_char c = "O"%char -> c = "o"%char \/ c = "O"%char.
Proof.
  destruct c as [[] [] [] [] [] [] [] []]; vm_compute; intros H;
    first [discriminate H | now left | now right].
Qed.

Lemma upper_char_N c : upper_char c = "N"%char -> c = "n"%char \/ c = "N"%char.
Proof.
  destruct c as [[] [] [] [] [] [] [] []]; vm_compute; intros H;
    first [discriminate H | now left | now right].
Qed.

Lemma upper_char_E c : upper_char c = "E"%char -> c = "e"%char \/ c = "E"%char.
Proof.
  destruct c as [[] [] [] [] [] [] [] []]; vm_compute; intros H;
    first [discriminate H | now left | now right].
Qed.

(** X12. The texts that finish the pair edit are the sixteen spellings
    of "done" in upper and lower case, and no other: these are exactly
    the texts whose upper case is DONE. *)
Theorem done_is_the_only_finish (t : string) :
  upper t = "DONE" <-> In t (case_variants "done").
Proof.
  split; [|intros H; exact (proj1 (done_variants t H))].
  intros H.
  destruct t as [|c1 [|c2 [|c3 [|c4 [|c5 r]]]]]; try discriminate H.
  cbn [upper] in H. injection H as H1 H2 H3 H4.
  apply upper_char_D in H1. apply upper_char_O in H2.
  apply upper_char_N in H3. apply upper_char_E in H4.
  destruct H1, H2, H3, H4; subst; vm_compute; tauto.
Qed.



(** *** Seeding the working pairs *)

Lemma callback_edit_pairs E msg s :
  _callback E (CallbackUpdate (mkQuery "edit_pairs" msg)) s
  = (for_each (edited_list E (_CONF s)) seed_body ;;;
     _send_coins_for_deletion pairs_prompt (Some (mkQuery "edit_pairs" msg)) ;;;
     ret RNone) s.
Proof. reflexivity. Qed.

Lemma with_coins_app s a b :
  mkState (_CONF s) (_CONVERSATION s) ((_UPDATED_COINS s ++ a) ++ b)
          (transport s) (trace s)
  = mkState (_CONF s) (_CONVERSATION s) (_UPDATED_COINS s ++ a ++ b)
            (transport s) (trace s).
Proof. rewrite <- app_assoc. reflexivity. Qed.

(** The loop over pairs that all have an underscore. *)
Lemma seed_loop_ok pairs coins :
  Forall2 coin_of pairs coins ->
  forall s,
    for_each pairs seed_body s
    = (Return tt,
       mkState (_CONF s) (_CONVERSATION s) (_UPDATED_COINS s ++ coins)
               (transport s) (trace s)).
Proof.
  induction 1 as [|p c ps cs Hp _ IH]; intros s.
  - cbn. rewrite app_nil_r. destruct s; reflexivity.
  - cbn [for_each]. unfold bind at 1. unfold seed_body at 1.
    unfold coin_of in Hp. rewrite Hp. monad. rewrite IH.
    cbn [_CONF _CONVERSATION _UPDATED_COINS transport trace].
    rewrite <- app_assoc. reflexivity.
Qed.

(** The loop that meets a pair without a symbol after an underscore. *)
Lemma seed_loop_bad good coins bad rest :
  Forall2 coin_of good coins ->
  nth_error (split_once "_" bad) 1 = None ->
  forall s,
    for_each (good ++ bad :: rest) seed_body s
    = (Raise EIndexError,
       mkState (_CONF s) (_CONVERSATION s) (_UPDATED_COINS s ++ coins)
               (transport s) (trace s)).
Proof.
  intros Hg Hbad. induction Hg as [|p c ps cs Hp _ IH]; intros s.
  - cbn [app for_each]. unfold bind at 1. unfold seed_body at 1.
    rewrite Hbad. unfold raise. rewrite app_nil_r. destruct s; reflexivity.
  - cbn [app for_each]. unfold bind at 1. unfold seed_body at 1.
    unfold coin_of in Hp. rewrite Hp. monad. rewrite IH.
    cbn [_CONF _CONVERSATION _UPDATED_COINS transport trace].
    rewrite <- app_assoc. reflexivity.
Qed.

Lemma no_underscore_no_coin p :
  contains "_" p = false -> nth_error (split_once "_" p) 1 = None.
Proof.
  intros H.
  assert (Hs : split_once "_" p = [p]).
  { induction p as [|c r IH]; [reflexivity|].
    cbn [contains starts_with] in H. cbn [split_once].
    rewrite Ascii.eqb_sym. destruct (Ascii.eqb "_" c); [discriminate|].
    cbn [andb] in H. rewrite (IH H). reflexivity. }
  rewrite Hs. reflexivity.
Qed.

Lemma prefixed_pair_coin stake coin :
  contains "_" stake = false -> coin_of (stake ++ "_" ++ coin) coin.
Proof.
  unfold coin_of. induction stake as [|c r IH]; intros H; [reflexivity|].
  cbn [contains starts_with] in H. cbn [String.append split_once].
  rewrite Ascii.eqb_sym. destruct (Ascii.eqb "_" c); [discriminate|].
  cbn [andb] in H. specialize (IH H). cbn [String.append] in IH.
  match goal with
  | |- context [split_once ?a ?b] => destruct (split_once a b) as [|w ws]
  end; [discriminate|exact IH].
Qed.

(** The state after the button "edit_pairs", when every pair has an
    underscore. *)
Lemma edit_pairs_state E msg s coins :
  Forall2 coin_of (edited_list E (_CONF s)) coins ->
  snd (_callback E (CallbackUpdate (mkQuery "edit_pairs" msg)) s)
  = after_grid pairs_prompt (Some (mkQuery "edit_pairs" msg))
      (mkState (_CONF s) (_CONVERSATION s) (_UPDATED_COINS s ++ coins)
               (transport s) (trace s)).
Proof.
  intros Hpairs. rewrite callback_edit_pairs. unfold bind at 1.
  rewrite (seed_loop_ok _ _ Hpairs s). unfold bind.
  rewrite send_coins_for_deletion_spec.
  destruct (outcome_result _); reflexivity.
Qed.

(** X14. The button "edit_pairs", when every pair of the list that the
    list mode selects has an underscore: what follows the first
    underscore of each pair is put at the end of the working pairs, in
    the order of the list and after whatever was there; the
    conversation is in the pair edit; the configuration is untouched;
    and the message of the button is edited once to show the grid of
    all working pairs. *)
Theorem edit_pairs_seeds (E : Env) (msg : Message) (s : State)
  (coins : list string)
  (Hpairs : Forall2 coin_of (edited_list E (_CONF s)) coins) :
  let s' := snd (_callback E (CallbackUpdate (mkQuery "edit_pairs" msg)) s) in
  _UPDATED_COINS s' = (_UPDATED_COINS s ++ coins)%list
  /\ _CONVERSATION s' = UPDATE_COINS
  /\ _CONF s' = _CONF s
  /\ exists outcome,
       trace s'
       = (trace s ++ [EvBot (edit_message_text pairs_prompt (chat_id msg)
                               (message_id msg) None
                               (Some (coin_buttons (_UPDATED_COINS s ++ coins))))
                            outcome])%list.
Proof.
  cbv zeta. rewrite (edit_pairs_state E msg s coins Hpairs).
  unfold after_grid, grid_call.
  cbn [_CONF _CONVERSATION _UPDATED_COINS transport trace message chat_id
       message_id].
  repeat split. eexists; reflexivity.
Qed.

Lemma edit_pairs_seeds_witness :
  _UPDATED_COINS (snd (_callback sample_env (button_from 42 "edit_pairs")
                         (in_conversation IDLE ["XRP"] [])))
  = ["XRP"; "ETH"; "LTC"].
Proof.
  assert (H : Forall2 coin_of
                (edited_list sample_env
                   (_CONF (in_conversation IDLE ["XRP"] []))) ["ETH"; "LTC"]).
  { repeat constructor. }
  exact (proj1 (edit_pairs_seeds sample_env (mkMessage 42 7 "")
                  (in_conversation IDLE ["XRP"] []) ["ETH"; "LTC"] H)).
Defined.

(** X15. The button "edit_pairs", when the list has a pair without an
    underscore: the handler stops at that pair with an [IndexError]. The
    symbols of the pairs before it are already among the working pairs
    and stay there; nothing is sent or logged and the conversation state
    is not moved. *)
Theorem edit_pairs_stops_at_bad_pair (E : Env) (msg : Message) (s : State)
  (good rest coins : list string) (bad : string)
  (Hlist : edited_list E (_CONF s) = (good ++ bad :: rest)%list)
  (Hgood : Forall2 coin_of good coins)
  (Hbad : contains "_" bad = false) :
  _callback E (CallbackUpdate (mkQuery "edit_pairs" msg)) s
  = (Raise EIndexError,
     mkState (_CONF s) (_CONVERSATION s) (_UPDATED_COINS s ++ coins)
             (transport s) (trace s)).
Proof.
  rewrite callback_edit_pairs. unfold bind at 1. rewrite Hlist.
  rewrite (seed_loop_bad good coins bad rest Hgood
             (no_underscore_no_coin _ Hbad) s).
  reflexivity.
Qed.

Lemma edit_pairs_stops_at_bad_pair_witness :
  let s := mkState (mkConf true 42 3 PNan "BTC" "USD" ["BTC_ETH"; "LTC"; "BTC_XRP"] [])
                   IDLE [] [] [] in
  _callback sample_env (button_from 42 "edit_pairs") s
  = (Raise EIndexError,
     mkState (_CONF s) IDLE ["ETH"] [] []).
Proof.
  intros s.
  assert (Hg : Forall2 coin_of ["BTC_ETH"] ["ETH"]) by (repeat constructor).
  exact (edit_pairs_stops_at_bad_pair sample_env (mkMessage 42 7 "") s
           ["BTC_ETH"] ["BTC_XRP"] ["ETH"] "LTC" eq_refl Hg eq_refl).
Defined.

Lemma Forall2_prefixed stake coins :
  contains "_" stake = false ->
  Forall2 coin_of (map (fun coin => (stake ++ "_" ++ coin)%string) coins) coins.
Proof.
  intros H. induction coins as [|c cs IH]; cbn [map]; constructor;
    [apply prefixed_pair_coin; exact H|exact IH].
Qed.

Lemma set_pair_whitelist_same c : set_pair_whitelist (pair_whitelist c) c = c.
Proof. destruct c; reflexivity. Qed.

Lemma set_pair_blacklist_same c : set_pair_blacklist (pair_blacklist c) c = c.
Proof. destruct c; reflexivity. Qed.

(** X16. Opening the pair edit and finishing it at once changes
    nothing: when there are no working pairs, the stake currency has no
    underscore and every pair of the edited list is the stake currency,
    an underscore and a symbol, then "edit_pairs" followed by "done"
    leaves the configuration exactly as it was, with no working pairs
    and the conversation idle, whatever the transport does. *)
Theorem edit_then_done_round_trip (E : Env) (msg : Message) (m : Message)
  (s : State) (coins : list string)
  (Hempty : _UPDATED_COINS s = [])
  (Hstake : contains "_" (stake_currency (_CONF s)) = false)
  (Hlist : edited_list E (_CONF s)
           = map (fun coin => (stake_currency (_CONF s) ++ "_" ++ coin)%string) coins)
  (Hdone : In (text m) (case_variants "done")) :
  let s' := run s [(E, CallbackUpdate (mkQuery "edit_pairs" msg));
                   (E, MessageUpdate m)] in
  _CONF s' = _CONF s /\ _UPDATED_COINS s' = [] /\ _CONVERSATION s' = IDLE.
Proof.
  cbv zeta. cbn [run].
  assert (Hp : Forall2 coin_of (edited_list E (_CONF s)) coins).
  { rewrite Hlist. apply Forall2_prefixed. exact Hstake. }
  assert (Hs1 : step E s (CallbackUpdate (mkQuery "edit_pairs" msg))
                = after_grid pairs_prompt (Some (mkQuery "edit_pairs" msg))
                    (mkState (_CONF s) (_CONVERSATION s) (_UPDATED_COINS s ++ coins)
                             (transport s) (trace s)))
    by exact (edit_pairs_state E msg s coins Hp).
  rewrite Hs1. clear Hs1.
  set (s1 := after_grid _ _ _).
  destruct (done_variants _ Hdone) as [Hup Hroute].
  unfold step. rewrite (Hroute E m s1 eq_refl).
  rewrite (message_handler_update_coins E _ s1 eq_refl),
          (handle_coin_updation_done E m s1 Hup).
  cbv zeta. unfold after_send. subst s1. unfold after_grid.
  cbn [_CONF _CONVERSATION _UPDATED_COINS transport trace].
  rewrite Hempty. cbn [app].
  unfold edited_list in Hlist.
  destruct (get_list_type E); rewrite <- Hlist;
    rewrite ?set_pair_whitelist_same, ?set_pair_blacklist_same;
    destruct (telegram_enabled (_CONF s)); cbn; auto.
Qed.

Lemma edit_then_done_round_trip_witness :
  _CONF (run sample_state [(sample_env, button_from 42 "edit_pairs");
                           (sample_env, text_from 42 "DONE")])
  = sample_conf.
Proof.
  assert (Hd : In "DONE" (case_variants "done")) by (vm_compute; tauto).
  exact (proj1 (edit_then_done_round_trip sample_env (mkMessage 42 7 "")
                  (mkMessage 42 7 "DONE") sample_state ["ETH"; "LTC"]
                  eq_refl eq_refl eq_refl Hd)).
Defined.

(** *** Duplicates *)

Lemma request_input_coins E key title conv s :
  _UPDATED_COINS (snd (request_input E key title conv s)) = _UPDATED_COINS s.
Proof.
  unfold request_input. monad. rewrite send_msg_spec.
  cbn [snd _UPDATED_COINS].
  match goal with |- context [after_send s ?t ?p] =>
    destruct (after_send_session s t p) as [_ [_ Hc]] end.
  exact Hc.
Qed.

(** A button press other than "edit_pairs" keeps the working pairs free
    of duplicates. *)
Lemma callback_keeps_NoDup E q s :
  data q <> "edit_pairs" ->
  NoDup (_UPDATED_COINS s) ->
  NoDup (_UPDATED_COINS (snd (_callback E (CallbackUpdate q) s))).
Proof.
  intros Hq N. unfold _callback. cbn [update_callback_query].
  destruct (String.eqb (data q) "view_config").
  { assert (K : keeps_session
                  (s0 <- get ;;
                   match rpc_config E (_CONF s0) with
                   | Failed df_pairs => send_msg df_pairs MARKDOWN ;;; ret RNone
                   | Fine table =>
                       bot (edit_message_text
                              ("∙ <b>Max Open Trades:</b> "
                               ++ str_of_int (max_open_trades (_CONF s0)) ++ nl ++
                               "∙ <b>Stake Amount:</b> "
                               ++ str_of_float E (stake_amount (_CONF s0))
                               ++ " " ++ stake_currency (_CONF s0) ++ nl ++
                               "∙ <b>" ++ match get_list_type E with
                                           | STATIC => "Whitelisted"
                                           | DYNAMIC => "Blacklisted" end
                               ++ " Currencies:</b>" ++ nl ++
                               "<pre>" ++ table ++ "</pre>")
                              (chat_id (message q)) (message_id (message q))
                              (Some HTML) None) ;;;
                       ret RNone
                   end)) by keeps.
    destruct (K s) as [_ [_ [Hc _]]]. rewrite Hc. exact N. }
  destruct (String.eqb (data q) "edit_config").
  { match goal with |- context [snd (?m s)] =>
      assert (K : keeps_session m) by keeps end.
    destruct (K s) as [_ [_ [Hc _]]]. rewrite Hc. exact N. }
  destruct (String.eqb (data q) "edit_max_open_trades");
    [rewrite request_input_coins; exact N|].
  destruct (String.eqb (data q) "edit_stake_amount");
    [rewrite request_input_coins; exact N|].
  destruct (String.eqb (data q) "edit_pairs") eqn:He;
    [apply String.eqb_eq in He; contradiction|].
  destruct (contains "x_" (data q)); [|exact N].
  destruct (nth_error (split_once "_" (data q)) 1) as [coin|]; [|exact N].
  apply remove_coin_keeps_NoDup. exact N.
Qed.

Lemma step_keeps_NoDup E u s :
  not_edit_pairs u ->
  NoDup (_UPDATED_COINS s) -> NoDup (_UPDATED_COINS (step E s u)).
Proof.
  intros Hu N. unfold step, dispatch. destruct u as [m|q].
  - destruct (text m) as [|c r] eqn:Ht; [exact N|].
    assert (Hcmd : forall h,
               lookup_handler (command_name r) (handles E) = Some h ->
               NoDup (_UPDATED_COINS (snd (h (MessageUpdate m) s)))).
    { intros h Hl.
      destruct (handles_keep_session E _ h (MessageUpdate m) Hl s)
        as [_ [_ [Hc _]]].
      rewrite Hc. exact N. }
    assert (Hfree : NoDup (_UPDATED_COINS
                             (snd (_message_handler E (MessageUpdate m) s))))
      by (apply free_text_keeps_NoDup; exact N).
    destruct c as [[] [] [] [] [] [] [] []]; try exact Hfree.
    destruct (lookup_handler (command_name r) (handles E)) as [h|] eqn:Hl;
      [exact (Hcmd h eq_refl)|exact N].
  - apply callback_keeps_NoDup; assumption.
Qed.

(** X17. No duplicates come from anything but "edit_pairs": over any
    run of commands, free texts and button presses in which no press has
    the payload "edit_pairs", working pairs that hold no symbol twice
    still hold no symbol twice at the end, whatever the backend and the
    transport do on the way. *)
Theorem run_keeps_NoDup (ops : list (Env * Update)) (s : State)
  (Hops : Forall (fun op => not_edit_pairs (snd op)) ops)
  (N : NoDup (_UPDATED_COINS s)) :
  NoDup (_UPDATED_COINS (run s ops)).
Proof.
  revert s N. induction Hops as [|[E u] ops Hu _ IH]; intros s N; [exact N|].
  cbn [run]. apply IH. apply step_keeps_NoDup; assumption.
Qed.

Lemma run_keeps_NoDup_witness :
  NoDup (_UPDATED_COINS
           (run (in_conversation UPDATE_COINS ["ETH"; "LTC"] [])
                [ (sample_env, text_from 42 "xrp");
                  (sample_env, text_from 42 "eth");
                  (sample_env, button_from 42 "x_LTC");
                  (sample_env, text_from 42 "/status") ])).
Proof.
  apply run_keeps_NoDup.
  - repeat constructor; cbn; discriminate.
  - cbn. repeat constructor; cbn; intuition discriminate.
Defined.

(** X18. Seeding an empty working list from pairs whose symbols differ
    gives working pairs without duplicates. *)
Theorem edit_pairs_seeds_distinct (E : Env) (msg : Message) (s : State)
  (coins : list string)
  (Hempty : _UPDATED_COINS s = [])
  (Hpairs : Forall2 coin_of (edited_list E (_CONF s)) coins)
  (Hdistinct : NoDup coins) :
  NoDup (_UPDATED_COINS
           (snd (_callback E (CallbackUpdate (mkQuery "edit_pairs" msg)) s))).
Proof.
  rewrite (edit_pairs_state E msg s coins Hpairs). unfold after_grid.
  cbn [_UPDATED_COINS]. rewrite Hempty. exact Hdistinct.
Qed.

Lemma edit_pairs_seeds_distinct_witness :
  NoDup (_UPDATED_COINS
           (snd (_callback sample_env (button_from 42 "edit_pairs") sample_state))).
Proof.
  assert (H : Forall2 coin_of (edited_list sample_env (_CONF sample_state))
                      ["ETH"; "LTC"]) by (repeat constructor).
  apply (edit_pairs_seeds_distinct sample_env (mkMessage 42 7 "") sample_state
           ["ETH"; "LTC"] eq_refl H).
  repeat constructor; cbn; intuition discriminate.
Defined.

(** ** /status *)

(** One message per item, while the transport delivers. *)
Lemma send_each_delivered (trades : list string) :
  forall s,
    telegram_enabled (_CONF s) = true -> transport s = [] ->
    for_each trades (fun trademsg => send_msg trademsg MARKDOWN) s
    = (Return tt,
       mkState (_CONF s) (_CONVERSATION s) (_UPDATED_COINS s) []
               (trace s
                ++ map (fun t => EvBot (send_message (telegram_chat_id (_CONF s)) t
                                          (Some MARKDOWN)
                                          (ReplyKeyboardMarkup keyboard))
                                       Delivered) trades)).
Proof.
  induction trades as [|t ts IH]; intros s Hon Htr.
  - cbn. rewrite app_nil_r. destruct s; cbn in *; subst; reflexivity.
  - cbn [for_each]. unfold bind at 1. rewrite send_msg_spec.
    unfold after_send. rewrite Hon, Htr. cbn [send_uses skipn send_events].
    rewrite IH by (cbn; first [exact Hon | reflexivity]).
    cbn [_CONF _CONVERSATION _UPDATED_COINS trace map].
    rewrite <- app_assoc. reflexivity.
Qed.

Lemma bot_calls_delivered (calls : list BotCall) :
  bot_calls (map (fun c => EvBot c Delivered) calls) = calls.
Proof. induction calls as [|c cs IH]; cbn; [|rewrite IH]; reflexivity. Qed.

(** X19. [/status] without the word "table" among the blank-separated
    words after the command, from the configured chat, with the module
    enabled and a transport that delivers: when the backend has trades,
    each trade text is sent as a message of its own, in the backend's
    order, and nothing else is sent. *)
Theorem status_sends_each_trade (E : Env) (m : Message) (s : State)
  (trades : list string)
  (Hauth : chat_id m = telegram_chat_id (_CONF s))
  (Hon : telegram_enabled (_CONF s) = true)
  (Hdeliver : transport s = [])
  (Hwords : mem "table" (split_on " " (delete_all "/status" (text m))) = false)
  (Htrades : rpc_trade_status E = Fine trades) :
  exists evs,
    trace (snd (_status E (MessageUpdate m) s)) = (trace s ++ evs)%list
    /\ bot_calls evs
       = map (fun t => send_message (telegram_chat_id (_CONF s)) t (Some MARKDOWN)
                                    (ReplyKeyboardMarkup keyboard)) trades.
Proof.
  unfold _status. rewrite (authorized_only_accepts _ _ _ _ Hauth).
  unfold try_except. monad.
  assert (Hp : mem "table"
                 (if String.eqb (text m) ""
                  then []
                  else split_on " " (delete_all "/status" (text m))) = false)
    by (destruct (String.eqb (text m) ""); [reflexivity|exact Hwords]).
  rewrite Hp, Htrades.
  rewrite send_each_delivered by assumption.
  cbn [snd trace _CONF]. rewrite <- app_assoc.
  eexists. split; [reflexivity|]. cbn [app bot_calls].
  rewrite <- (bot_calls_delivered
                (map (fun t => send_message (telegram_chat_id (_CONF s)) t
                                            (Some MARKDOWN)
                                            (ReplyKeyboardMarkup keyboard)) trades)).
  rewrite map_map. reflexivity.
Qed.

Lemma status_sends_each_trade_witness :
  exists evs,
    trace (snd (_status sample_env (text_from 42 "/status") sample_state))
    = (trace sample_state ++ evs)%list
    /\ bot_calls evs
       = [send_message 42 "trade 1" (Some MARKDOWN) (ReplyKeyboardMarkup keyboard)].
Proof.
  exact (status_sends_each_trade sample_env (mkMessage 42 7 "/status") sample_state
           ["trade 1"] eq_refl eq_refl eq_refl eq_refl eq_refl).
Defined.

(** X20. [/status] with the word "table" among the blank-separated
    words after the command, from the configured chat with the module
    enabled, is answered by [_status_table] alone: its call is logged
    after the call of [_status], and the only text sent is the backend's
    error text, or its table between pre tags in HTML; the list of
    trades is not asked for. *)
Theorem status_table_redirects (E : Env) (m : Message) (s : State)
  (Hauth : chat_id m = telegram_chat_id (_CONF s))
  (Hon : telegram_enabled (_CONF s) = true)
  (Htext : text m <> "")
  (Hwords : mem "table" (split_on " " (delete_all "/status" (text m))) = true) :
  let chat := telegram_chat_id (_CONF s) in
  let answer :=
    match rpc_status_table E with
    | Failed df_statuses =>
        send_message chat df_statuses (Some MARKDOWN) (ReplyKeyboardMarkup keyboard)
    | Fine table =>
        send_message chat ("<pre>" ++ table ++ "</pre>") (Some HTML)
                     (ReplyKeyboardMarkup keyboard)
    end in
  exists evs k,
    trace (snd (_status E (MessageUpdate m) s))
    = (trace s
       ++ EvLog INFO ("Executing handler: _status for chat_id: " ++ str_of_int chat)
       :: EvLog INFO ("Executing handler: _status_table for chat_id: "
                      ++ str_of_int chat)
       :: evs)%list
    /\ (1 <= k <= 2)%nat
    /\ bot_calls evs = repeat answer k.
Proof.
  cbv zeta. unfold _status. rewrite (authorized_only_accepts _ _ _ _ Hauth).
  unfold try_except. monad.
  apply String.eqb_neq in Htext. rewrite Htext, Hwords.
  unfold _status_table.
  match goal with
  | |- context [authorized_only ?n ?h ?u ?s0] =>
      rewrite (authorized_only_accepts n h m s0 Hauth)
  end.
  unfold try_except. cbn [_CONF _CONVERSATION _UPDATED_COINS transport trace].
  destruct (rpc_status_table E) as [msg|table]; monad; rewrite send_msg_spec;
    unfold after_send; cbn [_CONF]; rewrite Hon; cbn [snd trace];
    rewrite <- !app_assoc; cbn [app];
    eexists; exists (send_uses (transport s));
    (split; [reflexivity|]); (split; [apply send_uses_bounds|]);
    apply bot_calls_send_events.
Qed.

Lemma status_table_redirects_witness :
  exists evs k,
    trace (snd (_status sample_env (text_from 42 "/status table") sample_state))
    = (trace sample_state
       ++ EvLog INFO "Executing handler: _status for chat_id: 42"
       :: EvLog INFO "Executing handler: _status_table for chat_id: 42"
       :: evs)%list
    /\ (1 <= k <= 2)%nat
    /\ bot_calls evs
       = repeat (send_message 42 "<pre>table</pre>" (Some HTML)
                              (ReplyKeyboardMarkup keyboard)) k.
Proof.
  assert (Ht : text (mkMessage 42 7 "/status table") <> "") by discriminate.
  exact (status_table_redirects sample_env (mkMessage 42 7 "/status table")
           sample_state eq_refl eq_refl Ht eq_refl).
Defined.

(** ** The remaining buttons and the stake amount *)

(** X21. The buttons "view_config" and "edit_config" only show: after
    either, the configuration, the conversation state and the working
    pairs are as before and nothing was handed to [update_config],
    whatever the backend answers and the transport does. *)
Theorem config_buttons_keep_session (E : Env) (q : CallbackQuery) (s : State)
  (Hq : data q = "view_config" \/ data q = "edit_config") :
  session_kept s (snd (_callback E (CallbackUpdate q) s)).
Proof.
  destruct q as [d msg]. cbn [data] in Hq.
  destruct Hq as [-> | ->].
  - match goal with |- session_kept s (snd (?c s)) =>
      assert (K : keeps_session c); [|exact (K s)] end.
    unfold _callback. cbn [update_callback_query data].
    change (String.eqb "view_config" "view_config") with true. cbv iota.
    keeps.
  - match goal with |- session_kept s (snd (?c s)) =>
      assert (K : keeps_session c); [|exact (K s)] end.
    unfold _callback. cbn [update_callback_query data].
    change (String.eqb "edit_config" "view_config") with false.
    change (String.eqb "edit_config" "edit_config") with true. cbv iota.
    keeps.
Qed.

Lemma config_buttons_keep_session_witness :
  _CONVERSATION (snd (_callback failing_env (button_from 42 "view_config")
                        (in_conversation STAKE_AMOUNT ["ETH"] [NetworkError "reset"])))
  = STAKE_AMOUNT.
Proof.
  destruct (config_buttons_keep_session failing_env
              (mkQuery "view_config" (mkMessage 42 7 ""))
              (in_conversation STAKE_AMOUNT ["ETH"] [NetworkError "reset"])
              (or_introl eq_refl)) as [_ [H _]].
  exact H.
Defined.


